(** * dbm-eval: the benchmark dashboard, embedded and checked against its
      specification.

    The file follows the repository:
    - [JS]          the fragment of ECMAScript the sources rely on
                    (Number values, coercions, property reads, Number
                    formatting), written out from ECMA-262;
    - [FileUpload]  frontend/src/FileUpload.jsx;
    - [Report]      backend/model/report.js and the create operation of the
                    report routes;
    - [Datasets]    backend/routes/datasets.js;
    - [Statements]  the vocabulary of the theorems, and sample data.
    The theorems come last, one group per component of the
    specification. *)

From Stdlib Require Import ZArith QArith Qround Qpower Lia Lqa Ascii String.
From Stdlib Require Import Floats.SpecFloat.
From stdpp Require Import base strings list gmap pretty.

Set Warnings "-register-all".

Local Open Scope string_scope.
Local Open Scope Z_scope.

(** * The ECMAScript fragment *)
Module JS.

(** ** Completions: an operation returns normally or throws. *)
Inductive error := TypeError | RangeError.

Inductive completion (A : Type) :=
| Normal (a : A)
| Throw (e : error).
Arguments Normal {A} a.
Arguments Throw {A} e.

Definition bind {A B} (c : completion A) (k : A -> completion B) : completion B :=
  match c with
  | Normal a => k a
  | Throw e => Throw e
  end.

Notation "x <- c ; k" := (bind c (fun x => k))
  (at level 100, c at next level, right associativity, only parsing).

#[global] Instance error_eq_dec : EqDecision error.
Proof. solve_decision. Defined.

(** ** Number values: IEEE 754 binary64, with one NaN. *)
Definition prec : Z := 53.
Definition emax : Z := 1024.
Abbreviation number := spec_float.

#[global] Instance number_eq_dec : EqDecision number.
Proof. solve_decision. Defined.

Definition NaN : number := S754_nan.
Definition Infinity : number := S754_infinity false.
Definition zero : number := S754_zero false.

Definition is_nan (x : number) : bool :=
  match x with S754_nan => true | _ => false end.

Definition is_finite (x : number) : bool :=
  match x with S754_zero _ | S754_finite _ _ _ => true | _ => false end.

Definition is_negative (x : number) : bool :=
  match x with
  | S754_finite s _ _ | S754_infinity s => s
  | _ => false
  end.

(** The magnitude of ℝ(x), the rational a finite Number denotes (0 for
    both zeroes). *)
Definition magnitude_of (x : number) : Q :=
  match x with
  | S754_finite _ m e => inject_Z (Zpos m) * Qpower 2 e
  | _ => 0
  end.

(** 𝔽(p/q) for integers p >= 0 and q > 0, with the sign given apart:
    round to nearest, ties to even, overflowing to an infinity. *)
Definition round_ratio (neg : bool) (p q : Z) : number :=
  if p =? 0 then S754_zero neg
  else
    let '(mz, ez, lz) := SFdiv_core_binary prec emax p 0 q 0 in
    binary_round_aux prec emax neg mz ez lz.

(** 𝔽(s * 10^p) for an integer s >= 0. *)
Definition round_decimal (neg : bool) (s p : Z) : number :=
  round_ratio neg (s * 10 ^ Z.max p 0) (10 ^ Z.max (- p) 0).

Definition of_Z (n : Z) : number := round_ratio (n <? 0) (Z.abs n) 1.
Definition of_nat (n : nat) : number := of_Z (Z.of_nat n).

(** Number::divide, Number::equal. *)
Definition divide (x y : number) : number := SFdiv prec emax x y.
Definition number_equal (x y : number) : bool := SFeqb x y.

(** ** Number::toString(x, 10) *)

Definition digits (n : Z) : string := pretty (Z.to_N n).
Definition decimal_length (n : Z) : Z := Z.of_nat (String.length (digits n)).

Fixpoint zeros (n : nat) : string :=
  match n with
  | O => ""
  | S n' => String "0"%char (zeros n')
  end.

(** The first n code units of a string, and the rest. *)
Fixpoint take_string (n : nat) (s : string) : string :=
  match n, s with
  | S n', String c s' => String c (take_string n' s')
  | _, _ => ""
  end.

Fixpoint drop_string (n : nat) (s : string) : string :=
  match n, s with
  | S n', String _ s' => drop_string n' s'
  | _, _ => s
  end.

Section ShortestDigits.
(** The positive value num/den whose digits are wanted, and the Number
    [x] it is the value of. *)
Variables (x : number) (num den : Z).

(** floor (v / 10^p) *)
Definition scaled_floor (p : Z) : Z :=
  if 0 <=? p then num / (den * 10 ^ p) else (num * 10 ^ (- p)) / den.

(** The n with 10^(n-1) <= v < 10^n. *)
Definition decimal_exponent : Z :=
  let g := decimal_length num - decimal_length den in
  if 1 <=? scaled_floor g then g + 1 else g.

(** Is s * 10^p nearer to v than (s+1) * 10^p?  [Eq] on a tie. *)
Definition nearer_low (s p : Z) : comparison :=
  if 0 <=? p then 2 * num ?= (2 * s + 1) * 10 ^ p * den
  else 2 * num * 10 ^ (- p) ?= (2 * s + 1) * den.

Definition round_trips (s p : Z) : bool :=
  bool_decide (round_decimal false s p = x).

(** The k-digit s with 𝔽(s * 10^(n-k)) = x that is closest to v, if any. *)
Definition candidate (n k : Z) : option Z :=
  let p := n - k in
  let lo := scaled_floor p in
  let hi := lo + 1 in
  match round_trips lo p, round_trips hi p with
  | true, true =>
      match nearer_low lo p with
      | Lt => Some lo
      | Gt => Some hi
      | Eq => Some (if Z.even lo then lo else hi)
      end
  | true, false => Some lo
  | false, true => Some hi
  | false, false => None
  end.

(** Smallest k first; 17 digits identify every binary64 value. *)
Fixpoint shortest_from (fuel : nat) (n k : Z) : Z * Z * Z :=
  match fuel with
  | O => (n, k, scaled_floor (n - k))
  | S fuel' =>
      match candidate n k with
      | Some s =>
          if s =? 10 ^ k then (n + 1, k, 10 ^ (k - 1)) else (n, k, s)
      | None => shortest_from fuel' n (k + 1)
      end
  end.

Definition shortest : Z * Z * Z := shortest_from 17 decimal_exponent 1.
End ShortestDigits.

Definition exact_fraction (m : positive) (e : Z) : Z * Z :=
  if 0 <=? e then (Zpos m * 2 ^ e, 1) else (Zpos m, 2 ^ (- e)).

Definition format_digits (n k : Z) (s : string) : string :=
  if (-5 <=? n) && (n <=? 21) then
    if k <=? n then s +:+ zeros (Z.to_nat (n - k))
    else if 0 <? n then
      take_string (Z.to_nat n) s +:+ "." +:+ drop_string (Z.to_nat n) s
    else "0." +:+ zeros (Z.to_nat (- n)) +:+ s
  else
    let c := n - 1 in
    let exponent := (if c <? 0 then "-" else "+") +:+ digits (Z.abs c) in
    if k =? 1 then s +:+ "e" +:+ exponent
    else take_string 1 s +:+ "." +:+ drop_string 1 s +:+ "e" +:+ exponent.

Definition Number_toString (x : number) : string :=
  match x with
  | S754_nan => "NaN"
  | S754_zero _ => "0"
  | S754_infinity s => if s then "-Infinity" else "Infinity"
  | S754_finite s m e =>
      let '(num, den) := exact_fraction m e in
      let '(n, k, d) := shortest (S754_finite false m e) num den in
      (if s then "-" else "") +:+ format_digits n k (digits d)
  end.

(** ** Number.prototype.toFixed(fractionDigits) *)

(** The integer n for which n / 10^f - v is as close to zero as possible,
    the larger one when there are two. *)
Definition nearest_scaled (v : Q) (f : Z) : Z :=
  Qfloor (v * inject_Z (10 ^ f) + (1 # 2)).

Definition fixed_digits (n f : Z) : string :=
  let m := digits n in
  if f =? 0 then m
  else
    let k := Z.of_nat (String.length m) in
    let m := if k <=? f then zeros (Z.to_nat (f + 1 - k)) +:+ m else m in
    let k := Z.of_nat (String.length m) in
    take_string (Z.to_nat (k - f)) m +:+ "." +:+ drop_string (Z.to_nat (k - f)) m.

Definition toFixed (x : number) (fractionDigits : Z) : completion string :=
  let f := fractionDigits in
  if (f <? 0) || (100 <? f) then Throw RangeError
  else if negb (is_finite x) then Normal (Number_toString x)
  else if Qle_bool (inject_Z (10 ^ 21)) (magnitude_of x) then
    Normal (Number_toString x)
  else
    let s := if is_negative x then "-" else "" in
    let n := nearest_scaled (magnitude_of x) f in
    Normal (s +:+ fixed_digits n f).

(** ** StringToNumber

    Strings are sequences of code units; this development reads a [string]
    as the code units below 256. *)

Definition code (c : ascii) : Z := Z.of_N (N_of_ascii c).

(** StrWhiteSpaceChar: TAB, LF, VT, FF, CR, SP, NBSP. *)
Definition is_whitespace (c : ascii) : bool :=
  let n := code c in
  ((9 <=? n) && (n <=? 13)) || (n =? 32) || (n =? 160).

Definition digit_of (radix : Z) (c : ascii) : option Z :=
  let n := code c in
  let d :=
    if (48 <=? n) && (n <=? 57) then n - 48
    else if (97 <=? n) && (n <=? 102) then n - 87
    else if (65 <=? n) && (n <=? 70) then n - 55
    else radix in
  if d <? radix then Some d else None.

Fixpoint skip_whitespace (l : list ascii) : list ascii :=
  match l with
  | c :: l' => if is_whitespace c then skip_whitespace l' else l
  | [] => []
  end.

Definition trim (l : list ascii) : list ascii :=
  rev (skip_whitespace (rev (skip_whitespace l))).

(** The longest prefix of digits of the radix, and what follows it. *)
Fixpoint span_digits (radix : Z) (l : list ascii) : list Z * list ascii :=
  match l with
  | c :: l' =>
      match digit_of radix c with
      | Some d => let '(ds, rest) := span_digits radix l' in (d :: ds, rest)
      | None => ([], l)
      end
  | [] => ([], [])
  end.

Definition digits_value (radix : Z) (ds : list Z) : Z :=
  fold_left (fun acc d => acc * radix + d) ds 0.

(** SignedInteger, up to the end of the literal. *)
Definition parse_exponent (l : list ascii) : option Z :=
  let '(sign, rest) :=
    match l with
    | "+"%char :: r => (1, r)
    | "-"%char :: r => (-1, r)
    | _ => (1, l)
    end in
  match span_digits 10 rest with
  | ((_ :: _) as ds, []) => Some (sign * digits_value 10 ds)
  | _ => None
  end.

(** StrUnsignedDecimalLiteral other than Infinity: the digits s and the
    exponent p of its mathematical value s * 10^p. *)
Definition parse_unsigned_decimal (l : list ascii) : option (Z * Z) :=
  let '(ip, r1) := span_digits 10 l in
  let '(fp, r2) :=
    match r1 with
    | "."%char :: r => span_digits 10 r
    | _ => ([], r1)
    end in
  match (ip ++ fp)%list with
  | [] => None
  | ds =>
      let s := digits_value 10 ds in
      let shift := Z.of_nat (length fp) in
      match r2 with
      | [] => Some (s, - shift)
      | c :: r3 =>
          if (code c =? 101) || (code c =? 69) then
            match parse_exponent r3 with
            | Some e => Some (s, e - shift)
            | None => None
            end
          else None
      end
  end.

(** NonDecimalIntegerLiteral: 0b, 0o, 0x in either case, then digits. *)
Definition parse_non_decimal (l : list ascii) : option Z :=
  match l with
  | "0"%char :: c :: r =>
      let n := code c in
      let radix :=
        if (n =? 120) || (n =? 88) then Some 16
        else if (n =? 111) || (n =? 79) then Some 8
        else if (n =? 98) || (n =? 66) then Some 2
        else None in
      match radix with
      | Some radix =>
          match span_digits radix r with
          | ((_ :: _) as ds, []) => Some (digits_value radix ds)
          | _ => None
          end
      | None => None
      end
  | _ => None
  end.

Definition parse_decimal (neg : bool) (l : list ascii) : number :=
  if bool_decide (l = list_ascii_of_string "Infinity") then S754_infinity neg
  else
    match parse_unsigned_decimal l with
    | Some (s, p) => round_decimal neg s p
    | None => NaN
    end.

Definition StringToNumber (str : string) : number :=
  match trim (list_ascii_of_string str) with
  | [] => zero
  | l =>
      match parse_non_decimal l with
      | Some n => round_ratio false n 1
      | None =>
          match l with
          | "+"%char :: r => parse_decimal false r
          | "-"%char :: r => parse_decimal true r
          | _ => parse_decimal false l
          end
      end
  end.

(** ** Values

    The values a JSON response, a property read on one, or arithmetic can
    produce: no functions, symbols or BigInts.  An object is the list of its
    own properties in the engine's order; an array the list of its
    elements. *)
Inductive value :=
| VUndefined
| VNull
| VBool (b : bool)
| VNum (x : number)
| VStr (s : string)
| VArr (elements : list value)
| VObj (properties : list (string * value)).

Fixpoint own_property (key : string) (props : list (string * value)) : option value :=
  match props with
  | [] => None
  | (k, v) :: rest => if String.eqb k key then Some v else own_property key rest
  end.

Definition has_own_property (key : string) (props : list (string * value)) : bool :=
  match own_property key props with Some _ => true | None => false end.

Definition ToBoolean (v : value) : bool :=
  match v with
  | VUndefined | VNull => false
  | VBool b => b
  | VNum x => negb (is_nan x || number_equal x zero)
  | VStr s => negb (String.eqb s "")
  | VArr _ | VObj _ => true
  end.

Definition typeof (v : value) : string :=
  match v with
  | VUndefined => "undefined"
  | VNull | VArr _ | VObj _ => "object"
  | VBool _ => "boolean"
  | VNum _ => "number"
  | VStr _ => "string"
  end.

(** [v === p] for a primitive [p], which is what every comparison of the
    sources has on one side (undefined, null, 0, a typeof string); the
    identity of objects is not represented in [value]. *)
Definition strict_equal (v p : value) : bool :=
  match v, p with
  | VUndefined, VUndefined | VNull, VNull => true
  | VBool a, VBool b => Bool.eqb a b
  | VNum x, VNum y => number_equal x y
  | VStr s, VStr t => String.eqb s t
  | _, _ => false
  end.

(** ToString.  A JSON value is never callable, so an own [toString]
    property hides Object.prototype.toString and OrdinaryToPrimitive finds
    no method that yields a primitive: it throws a TypeError.  An array goes
    through Array.prototype.join. *)
Fixpoint ToString (v : value) : completion string :=
  match v with
  | VUndefined => Normal "undefined"
  | VNull => Normal "null"
  | VBool b => Normal (if b then "true" else "false")
  | VNum x => Normal (Number_toString x)
  | VStr s => Normal s
  | VArr elements =>
      (fix join (l : list value) : completion string :=
         match l with
         | [] => Normal ""
         | e :: rest =>
             s <- match e with
                  | VUndefined | VNull => Normal ""
                  | _ => ToString e
                  end;
             match rest with
             | [] => Normal s
             | _ => r <- join rest; Normal (s +:+ "," +:+ r)
             end
         end) elements
  | VObj props =>
      if has_own_property "toString" props then Throw TypeError
      else Normal "[object Object]"
  end.

(** ToNumber: an object is first brought to a primitive, which for the
    values at hand is the string ToString gives. *)
Definition ToNumber (v : value) : completion number :=
  match v with
  | VUndefined => Normal NaN
  | VNull => Normal zero
  | VBool b => Normal (if b then of_Z 1 else zero)
  | VNum x => Normal x
  | VStr s => Normal (StringToNumber s)
  | VArr _ | VObj _ => s <- ToString v; Normal (StringToNumber s)
  end.

(** The global isNaN, the Number constructor called as a function, and
    the division operator. *)
Definition isNaN (v : value) : completion bool :=
  x <- ToNumber v; Normal (is_nan x).

Definition Number_ (v : value) : completion number := ToNumber v.

Definition div (a b : value) : completion number :=
  x <- ToNumber a; y <- ToNumber b; Normal (divide x y).

(** Property reads.  None of the names the sources read is inherited from
    a prototype, so a name that is not an own property reads as undefined;
    reading from undefined or null throws. *)
Definition index_of (key : string) : option nat :=
  match list_ascii_of_string key with
  | [] => None
  | "0"%char :: _ :: _ => None
  | l =>
      match span_digits 10 l with
      | (ds, []) => Some (Z.to_nat (digits_value 10 ds))
      | _ => None
      end
  end.

Definition get (v : value) (key : string) : completion value :=
  match v with
  | VUndefined | VNull => Throw TypeError
  | VBool _ | VNum _ => Normal VUndefined
  | VStr s =>
      if String.eqb key "length" then Normal (VNum (of_nat (String.length s)))
      else
        match index_of key with
        | Some i =>
            match String.get i s with
            | Some c => Normal (VStr (String c ""))
            | None => Normal VUndefined
            end
        | None => Normal VUndefined
        end
  | VArr l =>
      if String.eqb key "length" then Normal (VNum (of_nat (length l)))
      else
        match index_of key with
        | Some i => Normal (default VUndefined (l !! i))
        | None => Normal VUndefined
        end
  | VObj props => Normal (default VUndefined (own_property key props))
  end.

(** [v?.key] *)
Definition get_optional (v : value) (key : string) : completion value :=
  match v with
  | VUndefined | VNull => Normal VUndefined
  | _ => get v key
  end.

(** Method calls the sources make on a value: [v.toFixed(d)] exists on
    Numbers only, [v.map(f)] on arrays only; elsewhere the call throws. *)
Definition call_toFixed (v : value) (fractionDigits : Z) : completion string :=
  match v with
  | VNum x => toFixed x fractionDigits
  | _ => Throw TypeError
  end.

Fixpoint map_from {E A} (f : E -> nat -> completion A) (i : nat) (l : list E)
  : completion (list A) :=
  match l with
  | [] => Normal []
  | e :: rest => a <- f e i; r <- map_from f (S i) rest; Normal (a :: r)
  end.

Definition call_map {A} (v : value) (f : value -> nat -> completion A)
  : completion (list A) :=
  match v with
  | VArr l => map_from f 0%nat l
  | _ => Throw TypeError
  end.

(** ** String(v), JSON.stringify(v), Object.entries(v), replace(/_/g, " ") *)

Definition hex_digit (n : Z) : ascii :=
  ascii_of_N (Z.to_N (if n <? 10 then 48 + n else 87 + n)).

(** QuoteJSONString *)
Definition quote_char (c : ascii) : string :=
  let n := code c in
  if n =? 8 then "\b" else if n =? 9 then "\t" else if n =? 10 then "\n"
  else if n =? 12 then "\f" else if n =? 13 then "\r"
  else if n =? 34 then String "\"%char (String (ascii_of_N 34) "")
  else if n =? 92 then "\\"
  else if n <? 32 then
    "\u00" +:+ String (hex_digit (n / 16)) (String (hex_digit (n mod 16)) "")
  else String c "".

Fixpoint quote_chars (s : string) : string :=
  match s with
  | EmptyString => ""
  | String c s' => quote_char c +:+ quote_chars s'
  end.

Definition quote (s : string) : string :=
  String (ascii_of_N 34) (quote_chars s) +:+ String (ascii_of_N 34) "".

Definition join_with (sep : string) (l : list string) : string :=
  match l with
  | [] => ""
  | s :: rest => fold_left (fun acc t => acc +:+ sep +:+ t) rest s
  end.

(** SerializeJSONProperty: None stands for undefined, which an array
    writes as null and an object leaves out. *)
Fixpoint SerializeJSONProperty (v : value) : option string :=
  match v with
  | VUndefined => None
  | VNull => Some "null"
  | VBool b => Some (if b then "true" else "false")
  | VNum x => Some (if is_finite x then Number_toString x else "null")
  | VStr s => Some (quote s)
  | VArr elements =>
      let items :=
        (fix items (l : list value) : list string :=
           match l with
           | [] => []
           | e :: rest => default "null" (SerializeJSONProperty e) :: items rest
           end) elements in
      Some ("[" +:+ join_with "," items +:+ "]")
  | VObj props =>
      let members :=
        (fix members (l : list (string * value)) : list string :=
           match l with
           | [] => []
           | (k, e) :: rest =>
               match SerializeJSONProperty e with
               | Some s => (quote k +:+ ":" +:+ s) :: members rest
               | None => members rest
               end
           end) props in
      Some ("{" +:+ join_with "," members +:+ "}")
  end.

Definition JSON_stringify (v : value) : value :=
  match SerializeJSONProperty v with
  | Some s => VStr s
  | None => VUndefined
  end.

(** Object.entries(v) for a value that is not undefined or null. *)
Definition Object_entries (v : value) : list (string * value) :=
  match v with
  | VObj props => props
  | VArr l => imap (fun i e => (pretty (N.of_nat i), e)) l
  | VStr s =>
      imap (fun i c => (pretty (N.of_nat i), VStr (String c "")))
           (list_ascii_of_string s)
  | _ => []
  end.

Fixpoint replace_underscores (s : string) : string :=
  match s with
  | EmptyString => ""
  | String c s' =>
      String (if Ascii.eqb c "_" then " "%char else c) (replace_underscores s')
  end.

End JS.

(** * frontend/src/FileUpload.jsx *)
Module FileUpload.
Import JS.

(** ** The three normalizers *)

(** [decimals] is the integer the argument stands for; [None] is an
    omitted argument, for which the default 2 comes in. *)
Definition safeNumber (value : value) (decimals : option Z) : completion string :=
  let decimals := default 2 decimals in
  if negb (strict_equal value VUndefined) && negb (strict_equal value VNull) then
    nan <- isNaN value;
    if negb nan then x <- Number_ value; toFixed x decimals
    else Normal "N/A"
  else Normal "N/A".

Definition safeDivide (a b : value) : completion number :=
  if ToBoolean b then
    q <- div a b;
    nan <- isNaN (VNum q);
    if negb nan && negb (strict_equal b (VNum zero)) then div a b
    else Normal zero
  else Normal zero.

Definition chartValue (value : value) : completion JS.value :=
  if negb (strict_equal value VUndefined) && negb (strict_equal value VNull) then
    nan <- isNaN value;
    if negb nan then x <- Number_ value; Normal (VNum x)
    else Normal VNull
  else Normal VNull.

(** ** Data transformation functions *)

Record row := { name : string; scidb : value; mapreduce : value }.

(** [data.engine?.field] *)
Definition engine_field (data : value) (engine field : string) : completion value :=
  e <- get data engine; get_optional e field.

(** One row whose two values are read and passed to chartValue. *)
Definition plain_row (data : value) (label sfield mfield : string) : completion row :=
  s <- engine_field data "scidb" sfield;
  s' <- chartValue s;
  m <- engine_field data "mapreduce" mfield;
  m' <- chartValue m;
  Normal {| name := label; scidb := s'; mapreduce := m' |}.

(** One row whose two values go through safeDivide first. *)
Definition scaled_row (data : value) (label sfield mfield : string) (by_ : Z)
  : completion row :=
  s <- engine_field data "scidb" sfield;
  sq <- safeDivide s (VNum (of_Z by_));
  s' <- chartValue (VNum sq);
  m <- engine_field data "mapreduce" mfield;
  mq <- safeDivide m (VNum (of_Z by_));
  m' <- chartValue (VNum mq);
  Normal {| name := label; scidb := s'; mapreduce := m' |}.

Definition performanceMetrics (data : value) : completion (list row) :=
  if ToBoolean data then
    r1 <- plain_row data "Execution Time (s)"
            "execution_time_seconds" "execution_time_seconds";
    r2 <- scaled_row data "Memory (MB)"
            "memory_usage_snapshot_mb" "memory_usage_avg_mb" 1;
    r3 <- plain_row data "CPU (%)" "cpu_percent_snapshot" "cpu_percent_avg";
    r4 <- plain_row data "Throughput (rows/s)"
            "throughput_rows_per_sec" "throughput_rows_per_sec";
    Normal [r1; r2; r3; r4]
  else Normal [].

Definition dataMetrics (data : value) : completion (list row) :=
  if ToBoolean data then
    r1 <- plain_row data "Rows Processed" "row_count" "row_count";
    r2 <- plain_row data "Columns" "column_count" "column_count";
    r3 <- scaled_row data "File Size (KB)" "file_size_bytes" "file_size_bytes" 1024;
    r4 <- plain_row data "Avg Row Size (bytes)"
            "avg_row_size_bytes" "avg_row_size_bytes";
    Normal [r1; r2; r3; r4]
  else Normal [].

Definition systemMetrics (data : value) : completion (list row) :=
  if ToBoolean data then
    r1 <- plain_row data "Memory Usage (%)"
            "memory_percent_snapshot" "memory_percent_avg";
    Normal [r1]
  else Normal [].

(** ** What a render returns

    A child of an element is a JS value (a string is text; React shows
    null, undefined and booleans as nothing), an array of children, or an
    element.  A prop is a value, a function (named here after what it
    calls), or a component without props.  The function components of the
    file, MetricCard and CustomTooltip, are functions to elements. *)
Inductive prop :=
| PValue (v : value)
| PHandler (calls : string)
| PComponent (component : string).

Inductive element :=
| EValue (v : value)
| EList (children : list element)
| EElem (tag : string) (props : list (string * prop)) (children : list element).

Definition EText (s : string) : element := EValue (VStr s).

Definition style (declarations : list (string * value)) : string * prop :=
  ("style", PValue (VObj declarations)).

Definition num (n : Z) : prop := PValue (VNum (of_Z n)).
Definition str (s : string) : prop := PValue (VStr s).

(** ** Recharts helper components *)

Definition tooltip_entry (entry : value) (index : nat) : completion element :=
  if negb (ToBoolean entry) then Normal (EValue VNull)
  else
    color <- get entry "color";
    if strict_equal color VUndefined then Normal (EValue VNull)
    else
      name <- get entry "name";
      value <- get entry "value";
      shown <-
        (if String.eqb (typeof value) "number" then
           nan <- isNaN value;
           if negb nan && negb (strict_equal value VNull)
           then call_toFixed value 2
           else Normal "N/A"
         else Normal "N/A");
      Normal (EElem "p"
                [("key", PValue (VNum (of_nat index)));
                 ("style", PValue (VObj [("color", color)]))]
                [EValue name; EText ":"; EText " "; EText shown]).

Definition CustomTooltip (active payload label : value) : completion element :=
  if ToBoolean active && ToBoolean payload then
    len <- get payload "length";
    if ToBoolean len then
      entries <- call_map payload tooltip_entry;
      Normal (EElem "div"
                [style [("padding", VStr "8px");
                        ("border", VStr "1px solid #ccc");
                        ("backgroundColor", VStr "white")]]
                [EElem "p" [] [EValue label]; EList entries])
    else Normal (EValue VNull)
  else Normal (EValue VNull).

Definition row_value (r : row) : value :=
  VObj [("name", VStr (name r)); ("scidb", scidb r); ("mapreduce", mapreduce r)].

(** [colors[i]] *)
Definition color_at (colors : list string) (i : nat) : prop :=
  PValue (default VUndefined (VStr <$> colors !! i)).

Definition renderChart (data : list row) (title : string)
  (colors : option (list string)) : element :=
  let colors := default ["#4f46e5"; "#10b981"] colors in
  let filteredData :=
    filter (fun item =>
              negb (strict_equal (scidb item) VNull)
              || negb (strict_equal (mapreduce item) VNull) = true) data in
  EElem "div"
    [style [("margin", VStr "20px 0"); ("border", VStr "1px solid #eee");
            ("padding", VStr "15px")]]
    [EElem "h4" [] [EText title];
     EElem "ResponsiveContainer" [("width", str "100%"); ("height", num 300)]
       [EElem "BarChart"
          [("data", PValue (VArr (row_value <$> filteredData)));
           ("margin",
            PValue (VObj [("top", VNum (of_Z 20)); ("right", VNum (of_Z 30));
                          ("left", VNum (of_Z 20)); ("bottom", VNum (of_Z 60))]))]
          [EElem "CartesianGrid" [("strokeDasharray", str "3 3")] [];
           EElem "XAxis"
             [("dataKey", str "name"); ("angle", num (-45));
              ("textAnchor", str "end"); ("height", num 80)] [];
           EElem "YAxis" [] [];
           EElem "Tooltip" [("content", PComponent "CustomTooltip")] [];
           EElem "Legend" [] [];
           EElem "Bar" [("dataKey", str "scidb"); ("fill", color_at colors 0)] [];
           EElem "Bar" [("dataKey", str "mapreduce"); ("fill", color_at colors 1)] []]]].

Definition MetricCard (title scidbValue mapreduceValue : string)
  (format : option (string -> string)) : element :=
  let format := default (fun v => v) format in
  EElem "div"
    [style [("border", VStr "1px solid #ccc"); ("padding", VStr "10px");
            ("margin", VStr "5px"); ("flex", VNum (of_Z 1))]]
    [EElem "h5" [] [EText title];
     EElem "p" [] [EText "SciDB: "; EText (format scidbValue)];
     EElem "p" [] [EText "MapReduce: "; EText (format mapreduceValue)]].

(** ** The component

    The state the three useState hooks hold.  [file] is the chosen File, of
    which only the name is kept. *)
Record state := { file : option string; response : value; loading : bool }.

Definition initial_state : state :=
  {| file := None; response := VNull; loading := false |}.

(** handleUpload, given what the request to /upload-and-process came to:
    without a file it only alerts; otherwise [loading] is set for the time
    of the request, a response sets [response] to its data, a failure
    alerts, and [loading] is cleared either way.  The result is the state
    once the handler is through, and the alert if there was one. *)
Inductive request_outcome :=
| Responded (data : value)
| Rejected.

Definition handleUpload (st : state) (outcome : request_outcome)
  : state * option string :=
  match file st with
  | None => (st, Some "Please select a file first.")
  | Some _ =>
      match outcome with
      | Responded data =>
          ({| file := file st; response := data; loading := false |}, None)
      | Rejected =>
          ({| file := file st; response := response st; loading := false |},
           Some "Upload failed! Please check backend.")
      end
  end.

(** The file input and the button. *)
Definition upload_form (st : state) : element :=
  EElem "div"
    [style [("display", VStr "flex"); ("gap", VStr "10px");
            ("margin", VStr "15px 0")]]
    [EElem "input" [("type", str "file"); ("onChange", PHandler "setFile")] [];
     EElem "button"
       [("onClick", PHandler "handleUpload");
        ("disabled", PValue (VBool (loading st)))]
       [EText (if loading st then "Processing..." else "Upload & Process")]].

(** One line of a details column. *)
Definition detail_line (entry : string * value) : completion element :=
  let '(key, val) := entry in
  shown <-
    (if String.eqb (typeof val) "object" then Normal (JSON_stringify val)
     else s <- ToString val; Normal (VStr s));
  Normal (EElem "p" [("key", str key)]
            [EElem "strong" [] [EText (replace_underscores key); EText ":"];
             EText " ";
             EValue shown]).

(** [Object.entries(engine || {}).map(...)] *)
Definition detail_lines (engine : value) : completion element :=
  lines <- map_from (fun e _ => detail_line e) 0%nat
             (Object_entries (if ToBoolean engine then engine else VObj []));
  Normal (EList lines).

(** [safeNumber(response.engine?.field, decimals)] *)
Definition shown_metric (response : value) (engine field : string) (decimals : Z)
  : completion string :=
  v <- engine_field response engine field; safeNumber v (Some decimals).

(** What stands to the right of [response &&]. *)
Definition summary (response : value) (perfData dataStats sysStats : list row)
  : completion element :=
  t1 <- shown_metric response "scidb" "execution_time_seconds" 3;
  t2 <- shown_metric response "mapreduce" "execution_time_seconds" 3;
  r1 <- shown_metric response "scidb" "throughput_rows_per_sec" 0;
  r2 <- shown_metric response "mapreduce" "throughput_rows_per_sec" 0;
  m1 <- shown_metric response "scidb" "memory_usage_snapshot_mb" 1;
  m2 <- shown_metric response "mapreduce" "memory_usage_avg_mb" 1;
  c1 <- shown_metric response "scidb" "cpu_percent_snapshot" 1;
  c2 <- shown_metric response "mapreduce" "cpu_percent_avg" 1;
  scidb <- get response "scidb";
  scidb_lines <- detail_lines scidb;
  mapreduce <- get response "mapreduce";
  mapreduce_lines <- detail_lines mapreduce;
  Normal (EElem "div" [style [("marginTop", VStr "30px")]]
    [EElem "h3" [] [EText "Performance Summary"];
     EElem "div"
       [style [("display", VStr "flex"); ("flexWrap", VStr "wrap");
               ("gap", VStr "20px")]]
       [MetricCard "Execution Time" t1 t2 (Some (fun v => v +:+ "s"));
        MetricCard "Throughput" r1 r2 (Some (fun v => v +:+ " rows/s"));
        MetricCard "Memory Usage" m1 m2 (Some (fun v => v +:+ " MB"));
        MetricCard "CPU Usage" c1 c2 (Some (fun v => v +:+ "%"))];
     EElem "div"
       [style [("display", VStr "grid");
               ("gridTemplateColumns",
                VStr "repeat(auto-fit, minmax(300px, 1fr))");
               ("gap", VStr "20px")]]
       [renderChart perfData "Performance Metrics" None;
        renderChart dataStats "Data Metrics" None;
        renderChart sysStats "System Metrics" None];
     EElem "h3" [] [EText "Detailed Metrics"];
     EElem "div" [style [("display", VStr "flex"); ("gap", VStr "20px")]]
       [EElem "div"
          [style [("flex", VNum (of_Z 1)); ("border", VStr "1px solid blue");
                  ("padding", VStr "15px")]]
          [EElem "h4" [] [EText "SciDB Details"]; scidb_lines];
        EElem "div"
          [style [("flex", VNum (of_Z 1)); ("border", VStr "1px solid green");
                  ("padding", VStr "15px")]]
          [EElem "h4" [] [EText "MapReduce Details"]; mapreduce_lines]]]).

(** The render: the three transformations run first, on whatever
    [response] holds; [response && (...)] is [response] itself when that is
    falsy. *)
Definition FileUpload (st : state) : completion element :=
  perfData <- performanceMetrics (response st);
  dataStats <- dataMetrics (response st);
  sysStats <- systemMetrics (response st);
  section <-
    (if ToBoolean (response st)
     then summary (response st) perfData dataStats sysStats
     else Normal (EValue (response st)));
  Normal (EElem "div"
    [style [("maxWidth", VStr "1200px"); ("margin", VStr "40px auto");
            ("padding", VStr "20px")]]
    [EElem "h2" [] [EText "File Upload & Database Benchmark"];
     upload_form st;
     section]).

End FileUpload.

(** * backend/model/report.js and the create operation *)
Module Report.
Import JS.

(** ** The schema, as model/report.js declares it *)
Inductive SchemaType := SchemaString | SchemaNumber.

Record schema_path := { path : string; type : SchemaType; required : bool }.

Definition reportSchema : list schema_path :=
  [ {| path := "faster_system"; type := SchemaString; required := true |};
    {| path := "execution_time_diff"; type := SchemaNumber; required := true |};
    {| path := "cpu_diff"; type := SchemaNumber; required := true |};
    {| path := "memory_diff"; type := SchemaNumber; required := true |};
    {| path := "disk_read_diff"; type := SchemaNumber; required := true |};
    {| path := "disk_write_diff"; type := SchemaNumber; required := true |} ].

(** Besides the declared paths a document has the identifier _id and the
    version key __v, which Mongoose adds to every schema, and, by the
    schema option [timestamps: true], createdAt and updatedAt.

    A report that sets declared paths only is [plain].  What Mongoose does
    with a body that sets anything else (the casts of ObjectId and Date,
    the uniqueness of _id, names with a dot in them) is not in this model,
    which says nothing of such a body. *)
Definition declared (key : string) : bool :=
  existsb (fun p => String.eqb (path p) key) reportSchema.

Definition plain (body : list (string * value)) : bool :=
  forallb (fun kv => declared kv.1) body.

(** ** What the schema makes Mongoose check

    A value set on a path is cast to the path's type, and a required path
    must then hold a value of that type (a String one that is not empty). *)
Inductive path_error := Required | CastFailed | NotInEnum.

#[global] Instance path_error_eq_dec : EqDecision path_error.
Proof. solve_decision. Defined.

(** The cast of a String path.  null and undefined pass as they are; an
    object with a non-empty string under _id stands for that string; what
    has a toString of its own kind (a string, a number, a boolean) is its
    string; an array, and an object left with Object.prototype.toString or
    with a property toString that cannot be called, fail. *)
Definition castString (v : value) : option value :=
  match v with
  | VUndefined | VNull => Some v
  | VArr _ => None
  | VObj props =>
      match own_property "_id" props with
      | Some (VStr id) => if String.eqb id "" then None else Some (VStr id)
      | _ => None
      end
  | VBool _ | VNum _ | VStr _ =>
      match ToString v with
      | Normal s => Some (VStr s)
      | Throw _ => None
      end
  end.

(** The cast of a Number: null and undefined pass as they are, the empty
    string is null, a string or a boolean is converted, and NaN fails; an
    array or an object is NaN or, past that test, nothing the cast takes. *)
Definition castNumber (val : value) : option value :=
  match val with
  | VUndefined | VNull => Some val
  | VArr _ | VObj _ => None
  | VBool _ | VNum _ | VStr _ =>
      if strict_equal val (VStr "") then Some VNull
      else
        match ToNumber val with
        | Normal x => if is_nan x then None else Some (VNum x)
        | Throw _ => None
        end
  end.

(** On a Number path, a value with an _id stands for it. *)
Definition cast (t : SchemaType) (v : value) : option value :=
  match t with
  | SchemaString => castString v
  | SchemaNumber =>
      castNumber
        match v with
        | VObj props => default v (own_property "_id" props)
        | _ => v
        end
  end.

Definition checkRequired (t : SchemaType) (v : value) : bool :=
  match t, v with
  | SchemaString, VStr s => negb (String.eqb s "")
  | SchemaNumber, VNum _ => true
  | _, _ => false
  end.

Definition field (body : list (string * value)) (key : string) : value :=
  default VUndefined (own_property key body).

Definition validate_path (body : list (string * value)) (p : schema_path)
  : option (string * path_error) :=
  match cast (type p) (field body (path p)) with
  | None => Some (path p, CastFailed)
  | Some v =>
      if required p && negb (checkRequired (type p) v)
      then Some (path p, Required)
      else None
  end.

(** The declared paths that fail, in schema order: what validation reports
    of a document built from a plain body. *)
Definition failing_paths (body : list (string * value))
  : list (string * path_error) :=
  omap (validate_path body) reportSchema.

(** The document's declared fields: the schema's paths with their cast
    values. *)
Definition cast_fields (body : list (string * value)) : list (string * value) :=
  (fun p => (path p, default VUndefined (cast (type p) (field body (path p)))))
    <$> reportSchema.

(** ** The store and create *)

Record document := {
  _id : N;
  fields : list (string * value);
  createdAt : Z;
  updatedAt : Z;
  __v : Z
}.

(** The collection, and the identifiers already handed out. *)
Record database := { reports : gmap N document; next_id : N }.

Inductive response_body :=
| Stored (doc : document)
| ValidationError (errors : list (string * path_error)).

Record response := { status : Z; body : response_body }.

(** Modelled from the spec: section 3 gives faster_system the type
    enum{scidb, mapreduce}, which model/report.js does not declare, and
    section 4.3 has create check it. *)
Definition faster_systems : list string := ["scidb"; "mapreduce"].

(** Modelled from the spec: the enum test of create, on a faster_system
    that is there as a string. *)
Definition enum_error (body : list (string * value))
  : list (string * path_error) :=
  match cast SchemaString (field body "faster_system") with
  | Some (VStr s) =>
      if String.eqb s "" || existsb (String.eqb s) faster_systems then []
      else [("faster_system", NotInEnum)]
  | _ => []
  end.

(** Modelled from the spec: controllers/ReportController.js is missing.
    createReport follows the spec's create (sections 3 and 4.3) and POST
    /reports (section 6): the report is validated, which for the presence
    and the types of the fields is what saving a document against
    [reportSchema] checks, and its faster_system must be scidb or
    mapreduce; the answer is 201 with the stored record, stamped and under
    a new identifier, or 400 with the validation error, nothing being
    stored.  [None] for a report that is not [plain]. *)
Definition createReport (db : database) (now : Z) (req_body : list (string * value))
  : option (database * response) :=
  if plain req_body then
    Some
      match (failing_paths req_body ++ enum_error req_body)%list with
      | [] =>
          let doc := {| _id := next_id db; fields := cast_fields req_body;
                        createdAt := now; updatedAt := now; __v := 0 |} in
          ({| reports := <[ next_id db := doc ]> (reports db);
              next_id := N.succ (next_id db) |},
           {| status := 201; body := Stored doc |})
      | errors => (db, {| status := 400; body := ValidationError errors |})
      end
  else None.

End Report.

(** * backend/routes/datasets.js *)
Module Datasets.
Import JS.

(** ** path.extname (POSIX), as Node computes it: one scan from the end *)
Record scan := {
  startDot : Z; startPart : Z; end_ : Z;
  matchedSlash : bool; preDotState : Z; stopped : bool
}.

Definition scan_step (st : scan) (i : Z) (c : Z) : scan :=
  if stopped st then st
  else if c =? 47 then
    if negb (matchedSlash st) then
      {| startDot := startDot st; startPart := i + 1; end_ := end_ st;
         matchedSlash := matchedSlash st; preDotState := preDotState st;
         stopped := true |}
    else st
  else
    let st :=
      if end_ st =? -1 then
        {| startDot := startDot st; startPart := startPart st; end_ := i + 1;
           matchedSlash := false; preDotState := preDotState st;
           stopped := false |}
      else st in
    if c =? 46 then
      if startDot st =? -1 then
        {| startDot := i; startPart := startPart st; end_ := end_ st;
           matchedSlash := matchedSlash st; preDotState := preDotState st;
           stopped := false |}
      else if negb (preDotState st =? 1) then
        {| startDot := startDot st; startPart := startPart st; end_ := end_ st;
           matchedSlash := matchedSlash st; preDotState := 1;
           stopped := false |}
      else st
    else if negb (startDot st =? -1) then
      {| startDot := startDot st; startPart := startPart st; end_ := end_ st;
         matchedSlash := matchedSlash st; preDotState := -1;
         stopped := false |}
    else st.

(** The characters from index [i] downwards, [rev_chars] being the string
    up to [i] in reverse. *)
Fixpoint scan_down (rev_chars : list ascii) (i : Z) (st : scan) : scan :=
  match rev_chars with
  | [] => st
  | c :: rest => scan_down rest (i - 1) (scan_step st i (code c))
  end.

Definition extname (p : string) : string :=
  let chars := list_ascii_of_string p in
  let st :=
    scan_down (rev chars) (Z.of_nat (length chars) - 1)
      {| startDot := -1; startPart := 0; end_ := -1;
         matchedSlash := true; preDotState := 0; stopped := false |} in
  if (startDot st =? -1) || (end_ st =? -1) || (preDotState st =? 0)
     || ((preDotState st =? 1) && (startDot st =? end_ st - 1)
         && (startDot st =? startPart st + 1))
  then ""
  else String.substring (Z.to_nat (startDot st))
         (Z.to_nat (end_ st - startDot st)) p.

(** ** uuid v4 and the upload directory

    The generator is the sequence of identifiers it will hand out; a call
    takes the next one. *)
Record world := {
  uuids : nat -> string;
  drawn : nat;
  uploads : list (string * Z)
}.

Definition uuidv4 (w : world) : string * world :=
  (uuids w (drawn w),
   {| uuids := uuids w; drawn := S (drawn w); uploads := uploads w |}).

(** A file part of the multipart request. *)
Record file_part := { fieldname : string; originalname : string; size : Z }.

(** req.file *)
Record file := {
  file_fieldname : string;
  file_originalname : string;
  filename : string;
  file_path : string;
  file_size : Z
}.

(** ** The multer configuration *)
Definition destination : string := "./uploads/".

Definition storage_filename (w : world) (part : file_part) : string * world :=
  let '(id, w) := uuidv4 w in
  let uniqueName := id +:+ extname (originalname part) in
  (uniqueName, w).

Definition fileSize : Z := 5 * 1024 * 1024 * 1024.

Inductive multer_error := LIMIT_FILE_SIZE | LIMIT_UNEXPECTED_FILE.

(** A file part whose file name is empty (a form sent with no file
    chosen) is skipped before anything else is looked at: multer drains it
    and goes on as if it were not there. *)
Definition named (parts : list file_part) : list file_part :=
  List.filter (fun part => negb (String.eqb (originalname part) "")) parts.

(** [upload.single('dataset')]: without a file part that has a name the
    handler runs with no req.file; a part under another field name, or a
    second file, is an error; a file is named by the storage, written to
    the destination, and removed again with an error when it exceeds
    [fileSize]. *)
Definition upload_single (w : world) (parts : list file_part)
  : world * (multer_error + option file) :=
  match named parts with
  | [] => (w, inr None)
  | part :: more =>
      if negb (String.eqb (fieldname part) "dataset") then
        (w, inl LIMIT_UNEXPECTED_FILE)
      else
        let '(name, w) := storage_filename w part in
        if fileSize <? size part then (w, inl LIMIT_FILE_SIZE)
        else
          match more with
          | _ :: _ =>
              (w, inl LIMIT_UNEXPECTED_FILE)
          | [] =>
              ({| uuids := uuids w; drawn := drawn w;
                  uploads := (name, size part) :: uploads w |},
               inr (Some {| file_fieldname := fieldname part;
                            file_originalname := originalname part;
                            filename := name;
                            (* path.join(destination, name) *)
                            file_path := "uploads/" +:+ name;
                            file_size := size part |}))
          end
  end.

(** ** The route *)
Inductive response_body :=
| Json (v : value)
| ErrorPage (e : multer_error).

Record response := { status : Z; body : response_body }.

(** The handler of POST /upload.  Nothing in its try block throws, so the
    500 of its catch is never the answer. *)
Definition upload_handler (w : world) (req_file : option file) : world * response :=
  match req_file with
  | None =>
      (w, {| status := 400;
             body := Json (VObj [("error", VStr "Dataset file is required")]) |})
  | Some f =>
      let '(uploadId, w) := uuidv4 w in
      (w, {| status := 201;
             body := Json (VObj [("message", VStr "Dataset uploaded successfully");
                                 ("uploadId", VStr uploadId);
                                 ("filename", VStr (filename f));
                                 ("path", VStr (file_path f));
                                 ("size", VNum (of_Z (file_size f)))]) |})
  end.

(** The middleware, then the handler; an error of the middleware goes to
    Express's default error handler, which answers 500. *)
Definition post_upload (w : world) (parts : list file_part) : world * response :=
  match upload_single w parts with
  | (w, inl e) => (w, {| status := 500; body := ErrorPage e |})
  | (w, inr req_file) => upload_handler w req_file
  end.

End Datasets.

(** * backend/controllers/UserController.js

    The users collection maps identifiers to documents.  The model
    (model/user.js) is not among the sources, so the two operations that go
    through its schema, createUser and updateUser, are left out; reading
    and deleting by identifier do not depend on it. *)
Module UserController.
Import JS.

(** [req.params.id], as the cast to an ObjectId leaves it: a string that
    is no identifier makes the query throw a CastError. *)
Inductive id_param :=
| Malformed
| ObjectId (id : N).

(** The outcome of a query: [None] when it threw the CastError. *)
Definition completion_or_cast (A : Type) : Type := option A.

Inductive response_body :=
| Document (user : value)
| Message (text : string)
| Error (text : string)
| CastError.

Record response := { status : Z; body : response_body }.

(** [User.findById(id)]: the document, null ([None]), or a CastError. *)
Definition findById (users : gmap N value) (p : id_param)
  : completion_or_cast (option value) :=
  match p with
  | Malformed => None
  | ObjectId id => Some (users !! id)
  end.

(** [User.findByIdAndDelete(id)]: what findById gives, the document being
    gone afterwards. *)
Definition findByIdAndDelete (users : gmap N value) (p : id_param)
  : gmap N value * completion_or_cast (option value) :=
  match p with
  | Malformed => (users, None)
  | ObjectId id => (delete id users, Some (users !! id))
  end.

Definition getUserById (users : gmap N value) (p : id_param) : response :=
  match findById users p with
  | Some user =>
      match user with
      | None => {| status := 404; body := Error "User not found" |}
      | Some user => {| status := 200; body := Document user |}
      end
  | None => {| status := 500; body := CastError |}
  end.

Definition deleteUser (users : gmap N value) (p : id_param)
  : gmap N value * response :=
  match findByIdAndDelete users p with
  | (users, Some deleted) =>
      match deleted with
      | None => (users, {| status := 404; body := Error "User not found" |})
      | Some _ =>
          (users, {| status := 200; body := Message "User deleted successfully" |})
      end
  | (users, None) => (users, {| status := 500; body := CastError |})
  end.

Definition logoutUser : response :=
  {| status := 200; body := Message "Logged out successfully" |}.

End UserController.

(** * The vocabulary of the theorems *)
Module Statements.
Import JS FileUpload Report Datasets.

(** ** Reading the output of toFixed back

    [read_numeral] reads a numeral [-]d..d[.d..d] as its sign, the integer
    its digits spell without the point, and the number of digits after the
    point; the numeral denotes that integer over 10 to that number. *)

Definition is_digit (c : ascii) : bool := (48 <=? code c) && (code c <=? 57).

Fixpoint all_digits (s : string) : bool :=
  match s with
  | EmptyString => true
  | String c s' => is_digit c && all_digits s'
  end.

Fixpoint digits_read (acc : Z) (s : string) : Z :=
  match s with
  | EmptyString => acc
  | String c s' => digits_read (acc * 10 + (code c - 48)) s'
  end.

Fixpoint split_at_point (s : string) : string * option string :=
  match s with
  | EmptyString => (EmptyString, None)
  | String c s' =>
      if Ascii.eqb c "." then (EmptyString, Some s')
      else let '(a, b) := split_at_point s' in (String c a, b)
  end.

Definition nonempty (s : string) : bool :=
  match s with EmptyString => false | _ => true end.

Definition read_unsigned (s : string) : option (Z * nat) :=
  match split_at_point s with
  | (ip, None) =>
      if all_digits ip && nonempty ip then Some (digits_read 0 ip, O) else None
  | (ip, Some fp) =>
      if all_digits ip && nonempty ip && all_digits fp && nonempty fp
      then Some (digits_read 0 (ip +:+ fp), String.length fp)
      else None
  end.

Definition read_numeral (s : string) : option (bool * Z * nat) :=
  match s with
  | EmptyString => None
  | String c s' =>
      if Ascii.eqb c "-" then
        match read_unsigned s' with
        | Some (n, f) => Some (true, n, f)
        | None => None
        end
      else
        match read_unsigned s with
        | Some (n, f) => Some (false, n, f)
        | None => None
        end
  end.

(** A numeral without a leading zero: after its sign, a 0 at its front is
    the whole numeral or is followed by the point. *)
Definition unsigned_part (s : string) : string :=
  match s with
  | String "-" s' => s'
  | _ => s
  end.

Definition no_leading_zero (s : string) : Prop :=
  forall c rest, unsigned_part s = String "0" (String c rest) -> c = "."%char.

(** A string that begins with a digit or a minus sign. *)
Definition starts_plainly (s : string) : Prop :=
  exists c rest, s = String c rest /\ (is_digit c = true \/ c = "-"%char).

(** ** Values that convert to a Number without a fault *)
Definition coerces (v : value) : Prop := exists x, ToNumber v = Normal x.

(** Every metric field of either engine, when it is there, converts. *)
Definition metrics_coerce (data : value) : Prop :=
  forall engine field v, engine_field data engine field = Normal v -> coerces v.

(** What CustomTooltip makes of one entry of the payload: nothing when the
    entry is falsy (undefined among them) or has no color; and "N/A" in the
    place of the value when that is not a Number or is NaN. *)
Definition entry_rendered (entry : value) (index : nat) (r : element) : Prop :=
  tooltip_entry entry index = Normal r
  /\ (ToBoolean entry = false \/ get entry "color" = Normal VUndefined ->
      r = EValue VNull)
  /\ (forall color name value,
        ToBoolean entry = true ->
        get entry "color" = Normal color -> color <> VUndefined ->
        get entry "name" = Normal name ->
        get entry "value" = Normal value ->
        (forall x, value = VNum x -> is_nan x = true) ->
        r = EElem "p"
              [("key", PValue (VNum (of_nat index)));
               ("style", PValue (VObj [("color", color)]))]
              [EValue name; EText ":"; EText " "; EText "N/A"]).

(** What chartValue hands to Recharts: null or a Number other than NaN. *)
Definition plottable (v : value) : Prop :=
  v = VNull \/ exists x, v = VNum x /\ is_nan x = false.

(** The [data] prop of the BarChart inside what renderChart returns. *)
Definition chart_data (chart : element) : option value :=
  match chart with
  | EElem _ _ [_; EElem _ _ [EElem _ (("data", PValue v) :: _) _]] => Some v
  | _ => None
  end.

(** No code unit of the string is a slash. *)
Definition slash_free (s : string) : Prop :=
  forall i c, String.get i s = Some c -> c <> "/"%char.

(** ** The scan of path.extname *)

(** The character at an index is not the one of the given code. *)
Definition differs (chars : list ascii) (j : Z) (n : Z) : Prop :=
  forall c, chars !! Z.to_nat j = Some c -> code c <> n.

(** What holds of the scan when the indices from [k] on are behind it. *)
Definition scanned (chars : list ascii) (st : scan) (k : Z) : Prop :=
  let lo := if stopped st then startPart st else k in
  0 <= lo
  /\ matchedSlash st = (end_ st =? -1)
  /\ (end_ st = -1 -> startDot st = -1 /\ stopped st = false)
  /\ (end_ st <> -1 -> lo <= end_ st <= Z.of_nat (length chars))
  /\ (forall j, lo <= j < end_ st -> differs chars j 47)
  /\ (startDot st = -1 -> forall j, lo <= j < end_ st -> differs chars j 46)
  /\ (startDot st <> -1 ->
      lo <= startDot st < end_ st
      /\ (exists c, chars !! Z.to_nat (startDot st) = Some c /\ code c = 46)
      /\ forall j, startDot st < j < end_ st -> differs chars j 46).

(** ** The answer to an accepted upload *)

(** The body of the 201 answer. *)
Definition uploaded (uploadId name : string) (sz : Z) : response :=
  {| status := 201;
     body := Json (VObj [("message", VStr "Dataset uploaded successfully");
                         ("uploadId", VStr uploadId);
                         ("filename", VStr name);
                         ("path", VStr ("uploads/" +:+ name));
                         ("size", VNum (of_Z sz))]) |}.

(** The answer to a request without a file. *)
Definition no_file : response :=
  {| status := 400;
     body := Json (VObj [("error", VStr "Dataset file is required")]) |}.

(** ** Sample data *)

(** The Number a literal denotes. *)
Definition sample (s : string) : number := StringToNumber s.

(** A response in which one engine is missing altogether and the other
    reports two fields, one of them as a string. *)
Definition partial_response : value :=
  VObj [("scidb", VObj [("execution_time_seconds",
                         VNum (sample "1.5"));
                        ("row_count", VStr "12")]);
        ("mapreduce", VNull)].

(** A response in which one metric field holds an object with a property
    of its own called toString: JSON the server can send, and a value that
    cannot be converted to a Number. *)
Definition unconvertible_response : value :=
  VObj [("scidb", VObj [("execution_time_seconds",
                         VObj [("toString", VNull)])]);
        ("mapreduce", VObj [])].

(** A report whose faster_system is neither scidb nor mapreduce. *)
Definition outsider_report : list (string * value) :=
  [("faster_system", VStr "postgres");
   ("execution_time_diff", VNum (sample "1.5"));
   ("cpu_diff", VNum (sample "3.2"));
   ("memory_diff", VNum (sample "-10.0"));
   ("disk_read_diff", VNum zero);
   ("disk_write_diff", VNum zero)].

Definition empty_database : database := {| reports := ∅; next_id := 0 |}.


(** Two identifiers, as uuid v4 writes them. *)
Definition two_uuids (n : nat) : string :=
  match n with
  | O => "3b241101-e2bb-4255-8caf-4136c566a962"
  | _ => "6ec0bd7f-11c0-43da-975e-2a8ad9ebae0b"
  end.

Definition fresh_world : world :=
  {| uuids := two_uuids; drawn := 0; uploads := [] |}.


End Statements.

(** * Theorems: the numerals toFixed writes *)
Module NumeralFacts.
Import JS Statements.

(** ** Strings *)

Lemma append_cons (c : ascii) (a b : string) :
  String c a +:+ b = String c (a +:+ b).
Proof. reflexivity. Qed.

Lemma append_nil (b : string) : "" +:+ b = b.
Proof. reflexivity. Qed.

Ltac string_simpl := simpl; rewrite ?append_cons, ?append_nil; simpl.


Lemma append_assoc (a b c : string) : (a +:+ b) +:+ c = a +:+ (b +:+ c).
Proof. induction a as [|x a IH]; string_simpl; [reflexivity | now rewrite IH]. Qed.

Lemma length_append (a b : string) :
  String.length (a +:+ b) = (String.length a + String.length b)%nat.
Proof. induction a as [|x a IH]; string_simpl; [reflexivity | now rewrite IH]. Qed.

Lemma take_drop (n : nat) (s : string) : take_string n s +:+ drop_string n s = s.
Proof.
  revert s. induction n as [|n IH]; intros [|c s]; string_simpl; try reflexivity.
  now rewrite IH.
Qed.

Lemma length_take (n : nat) (s : string) :
  (n <= String.length s)%nat -> String.length (take_string n s) = n.
Proof.
  revert s. induction n as [|n IH]; intros [|c s]; simpl; intros H;
    try reflexivity; try lia.
  rewrite IH; [reflexivity | lia].
Qed.

Lemma length_drop (n : nat) (s : string) :
  String.length (drop_string n s) = (String.length s - n)%nat.
Proof.
  revert s. induction n as [|n IH]; intros [|c s]; simpl; try reflexivity.
  apply IH.
Qed.

Lemma all_digits_append (a b : string) :
  all_digits (a +:+ b) = all_digits a && all_digits b.
Proof.
  induction a as [|x a IH]; string_simpl; [reflexivity|].
  rewrite IH. now rewrite andb_assoc.
Qed.

Lemma all_digits_take_drop (n : nat) (s : string) :
  all_digits s = true ->
  all_digits (take_string n s) = true /\ all_digits (drop_string n s) = true.
Proof.
  intros H. rewrite <- (take_drop n s), all_digits_append in H.
  now apply andb_true_iff in H.
Qed.

Lemma all_digits_zeros (n : nat) : all_digits (zeros n) = true.
Proof. induction n; simpl; [reflexivity | assumption]. Qed.

Lemma length_zeros (n : nat) : String.length (zeros n) = n.
Proof. induction n; simpl; [reflexivity | now f_equal]. Qed.

Lemma digits_read_append (acc : Z) (a b : string) :
  digits_read acc (a +:+ b) = digits_read (digits_read acc a) b.
Proof.
  revert acc. induction a as [|x a IH]; intros acc; string_simpl;
    [reflexivity | apply IH].
Qed.

Lemma digits_read_zeros (n : nat) (s : string) :
  digits_read 0 (zeros n +:+ s) = digits_read 0 s.
Proof. induction n; string_simpl; [reflexivity | assumption]. Qed.

Lemma split_digits_point (ip fp : string) :
  all_digits ip = true ->
  split_at_point (ip +:+ String "." fp) = (ip, Some fp).
Proof.
  induction ip as [|c ip IH]; string_simpl; intros H; [reflexivity|].
  apply andb_true_iff in H as [Hc Hip].
  destruct (Ascii.eqb c ".") eqn:E.
  - apply Ascii.eqb_eq in E. subst c. discriminate Hc.
  - now rewrite (IH Hip).
Qed.

Lemma split_digits (ip : string) :
  all_digits ip = true -> split_at_point ip = (ip, None).
Proof.
  induction ip as [|c ip IH]; simpl; intros H; [reflexivity|].
  apply andb_true_iff in H as [Hc Hip].
  destruct (Ascii.eqb c ".") eqn:E.
  - apply Ascii.eqb_eq in E. subst c. discriminate Hc.
  - now rewrite (IH Hip).
Qed.

(** ** The digits of a natural number *)

Lemma pretty_char_digit (d : N) : is_digit (pretty_N_char d) = true.
Proof. unfold pretty_N_char. repeat case_match; reflexivity. Qed.

Lemma pretty_char_code (d : N) : (d < 10)%N -> code (pretty_N_char d) - 48 = Z.of_N d.
Proof.
  intros H.
  assert (d = 0 \/ d = 1 \/ d = 2 \/ d = 3 \/ d = 4 \/ d = 5 \/ d = 6 \/ d = 7
          \/ d = 8 \/ d = 9)%N as Hd by lia.
  repeat (destruct Hd as [->|Hd]; [reflexivity|]). now subst.
Qed.

Lemma pretty_go_append (x : N) (s : string) :
  pretty_N_go x s = pretty_N_go x "" +:+ s.
Proof.
  revert s. induction (N.lt_wf_0 x) as [x _ IH]. intros s.
  destruct (decide (x = 0%N)) as [->|Hx]; [reflexivity|].
  rewrite (pretty_N_go_step x s), (pretty_N_go_step x "") by lia.
  rewrite IH by (apply N.div_lt; lia).
  rewrite (IH (x `div` 10)%N ltac:(apply N.div_lt; lia) (String _ "")).
  now rewrite append_assoc.
Qed.

Lemma pretty_go_digits (x : N) :
  all_digits (pretty_N_go x "") = true
  /\ digits_read 0 (pretty_N_go x "") = Z.of_N x
  /\ (x <> 0%N -> nonempty (pretty_N_go x "") = true).
Proof.
  induction (N.lt_wf_0 x) as [x _ IH].
  destruct (decide (x = 0%N)) as [->|Hx]; [now split|].
  rewrite pretty_N_go_step, pretty_go_append by lia.
  destruct (IH (x `div` 10)%N ltac:(apply N.div_lt; lia)) as (Ha & Hv & _).
  split; [|split].
  - rewrite all_digits_append, Ha. simpl. now rewrite pretty_char_digit.
  - rewrite digits_read_append, Hv. simpl.
    rewrite pretty_char_code by (apply N.mod_lt; lia).
    pose proof (N.div_mod x 10 ltac:(lia)). lia.
  - intros _. destruct (pretty_N_go (x `div` 10) ""); reflexivity.
Qed.

Lemma digits_facts (n : Z) :
  0 <= n ->
  all_digits (digits n) = true /\ digits_read 0 (digits n) = n
  /\ nonempty (digits n) = true.
Proof.
  intros Hn. unfold digits, pretty, pretty_N.
  destruct (decide (Z.to_N n = 0%N)) as [E|E].
  - split; [reflexivity | split; [|reflexivity]].
    change (0 = n). lia.
  - destruct (pretty_go_digits (Z.to_N n)) as (Ha & Hv & Hne).
    split; [assumption | split; [lia | auto]].
Qed.

Lemma digits_start (n : Z) :
  exists c rest, digits n = String c rest /\ is_digit c = true.
Proof.
  unfold digits, pretty, pretty_N.
  destruct (decide (Z.to_N n = 0%N)) as [E|E].
  - now exists "0"%char, "".
  - destruct (pretty_go_digits (Z.to_N n)) as (Ha & _ & Hne).
    specialize (Hne E).
    destruct (pretty_N_go (Z.to_N n) "") as [|c rest]; [discriminate|].
    exists c, rest. split; [reflexivity|].
    simpl in Ha. now apply andb_true_iff in Ha.
Qed.

(** ** The numeral toFixed writes *)

Lemma nonempty_length (s : string) :
  (0 < String.length s)%nat -> nonempty s = true.
Proof. destruct s; simpl; [lia | reflexivity]. Qed.

Lemma read_fixed_digits (n f : Z) :
  0 <= n -> 0 <= f -> read_unsigned (fixed_digits n f) = Some (n, Z.to_nat f).
Proof.
  intros Hn Hf. unfold fixed_digits, read_unsigned.
  destruct (digits_facts n Hn) as (Hall & Hval & Hne).
  destruct (f =? 0) eqn:Ef.
  - apply Z.eqb_eq in Ef. subst f.
    rewrite (split_digits _ Hall), Hall, Hne, Hval. reflexivity.
  - apply Z.eqb_neq in Ef.
    set (m0 := digits n) in *.
    set (m := if Z.of_nat (String.length m0) <=? f
              then zeros (Z.to_nat (f + 1 - Z.of_nat (String.length m0))) +:+ m0
              else m0).
    assert (Hm : all_digits m = true /\ digits_read 0 m = n
                 /\ f + 1 <= Z.of_nat (String.length m)).
    { subst m. destruct (Z.of_nat (String.length m0) <=? f) eqn:Ek.
      - apply Z.leb_le in Ek.
        rewrite all_digits_append, all_digits_zeros, digits_read_zeros,
          length_append, length_zeros.
        split; [assumption | split; [assumption | lia]].
      - apply Z.leb_gt in Ek. split; [assumption | split; [assumption | lia]]. }
    destruct Hm as (Hmall & Hmval & Hmlen).
    set (j := Z.to_nat (Z.of_nat (String.length m) - f)).
    assert (Hj : (1 <= j <= String.length m)%nat) by lia.
    destruct (all_digits_take_drop j m Hmall) as [Htake Hdrop].
    change (take_string j m +:+ "." +:+ drop_string j m)
      with (take_string j m +:+ String "." (drop_string j m)).
    rewrite (split_digits_point _ _ Htake), Htake, Hdrop.
    rewrite (nonempty_length (take_string j m))
      by (rewrite length_take; lia).
    rewrite (nonempty_length (drop_string j m))
      by (rewrite length_drop; lia).
    rewrite take_drop, Hmval, length_drop. simpl.
    do 2 f_equal. lia.
Qed.

Lemma read_unsigned_no_sign (c : ascii) (s : string) (r : Z * nat) :
  read_unsigned (String c s) = Some r -> Ascii.eqb c "-" = false.
Proof.
  unfold read_unsigned. simpl.
  destruct (Ascii.eqb c "-") eqn:E; [|reflexivity].
  apply Ascii.eqb_eq in E. subst c. simpl.
  destruct (split_at_point s) as [a [b|]]; simpl; discriminate.
Qed.

Lemma read_signed_fixed_digits (neg : bool) (n f : Z) :
  0 <= n -> 0 <= f ->
  read_numeral ((if neg then "-" else "") +:+ fixed_digits n f)
  = Some (neg, n, Z.to_nat f).
Proof.
  intros Hn Hf. pose proof (read_fixed_digits n f Hn Hf) as H.
  destruct neg.
  - change ("-" +:+ fixed_digits n f) with (String "-" (fixed_digits n f)).
    simpl. now rewrite H.
  - rewrite append_nil.
    destruct (fixed_digits n f) as [|c s] eqn:E; [discriminate H|].
    simpl. rewrite (read_unsigned_no_sign c s _ H). now rewrite H.
Qed.

(** ** The integer toFixed rounds to *)

Lemma magnitude_nonneg (x : number) : (0 <= magnitude_of x)%Q.
Proof.
  destruct x as [s|s| |s m e]; simpl; try apply Qle_refl.
  apply Qmult_le_0_compat; [|apply Qpower_0_le]; discriminate.
Qed.

Lemma nearest_scaled_spec (v : Q) (f : Z) :
  (0 <= v)%Q -> 0 <= f ->
  let n := nearest_scaled v f in
  0 <= n
  /\ (inject_Z n - (1 # 2) <= v * inject_Z (10 ^ f))%Q
  /\ (v * inject_Z (10 ^ f) < inject_Z n + (1 # 2))%Q.
Proof.
  intros Hv Hf n. subst n. unfold nearest_scaled.
  set (t := (v * inject_Z (10 ^ f))%Q).
  assert (Ht : (0 <= t)%Q).
  { apply Qmult_le_0_compat; [assumption|].
    change 0%Q with (inject_Z 0). rewrite <- Zle_Qle. apply Z.pow_nonneg. lia. }
  pose proof (Qfloor_le (t + (1 # 2))) as Hlo.
  pose proof (Qlt_floor (t + (1 # 2))) as Hhi.
  rewrite inject_Z_plus in Hhi. change (inject_Z 1) with 1%Q in Hhi.
  assert (H0 : 0 <= Qfloor (t + (1 # 2))).
  { change 0 with (Qfloor (inject_Z 0)) at 1. apply Qfloor_resp_le.
    change (inject_Z 0) with 0%Q. clearbody t. lra. }
  clearbody t. split; [exact H0 | split; lra].
Qed.

(** ** toFixed never writes "N/A" *)

Lemma starts_plainly_not_unavailable (s : string) :
  starts_plainly s -> s <> "N/A".
Proof.
  intros (c & rest & -> & [H| ->]) E;
    [injection E as -> _; discriminate H | discriminate E].
Qed.

Lemma take_start (n : nat) (c : ascii) (s : string) :
  (0 < n)%nat -> exists rest, take_string n (String c s) = String c rest.
Proof. destruct n; [lia|]. intros _. simpl. eauto. Qed.

Lemma format_digits_start (n k d : Z) :
  starts_plainly (format_digits n k (digits d)).
Proof.
  destruct (digits_start d) as (c & rest & E & Hc). rewrite E.
  unfold format_digits.
  destruct ((-5 <=? n) && (n <=? 21)).
  - destruct (k <=? n); [exists c; eexists; split; [reflexivity | auto]|].
    destruct (0 <? n) eqn:En.
    + apply Z.ltb_lt in En.
      destruct (take_start (Z.to_nat n) c rest ltac:(lia)) as (r & ->).
      exists c; eexists; split; [reflexivity | auto].
    + exists "0"%char; eexists; split; [reflexivity | auto].
  - destruct (k =? 1); simpl; exists c; eexists; split; try reflexivity; auto.
Qed.

Lemma fixed_digits_start (n f : Z) :
  0 <= f -> starts_plainly (fixed_digits n f).
Proof.
  intros Hf. destruct (digits_start n) as (c & rest & E & Hc).
  unfold fixed_digits. rewrite E.
  destruct (f =? 0); [exists c, rest; auto|].
  set (m0 := String c rest).
  set (m := if Z.of_nat (String.length m0) <=? f
            then zeros (Z.to_nat (f + 1 - Z.of_nat (String.length m0))) +:+ m0
            else m0).
  assert (Hm : (exists c' r', m = String c' r' /\ is_digit c' = true)
               /\ f + 1 <= Z.of_nat (String.length m)).
  { subst m. destruct (Z.of_nat (String.length m0) <=? f) eqn:Ek.
    - apply Z.leb_le in Ek. rewrite length_append, length_zeros.
      split; [|lia].
      destruct (Z.to_nat (f + 1 - Z.of_nat (String.length m0))) as [|z] eqn:Ez;
        [lia|].
      simpl. rewrite append_cons. eauto.
    - apply Z.leb_gt in Ek. split; [subst m0; eauto | lia]. }
  destruct Hm as ((c' & r' & Em & Hc') & Hlen). rewrite Em in *.
  destruct (take_start (Z.to_nat (Z.of_nat (String.length (String c' r')) - f))
              c' r' ltac:(lia)) as (r & ->).
  exists c'; eexists; split; [reflexivity | auto].
Qed.

Lemma Number_toString_start (x : number) :
  is_finite x = true -> starts_plainly (Number_toString x).
Proof.
  destruct x as [s|s| |s m e]; try discriminate; intros _; simpl.
  - exists "0"%char, "". auto.
  - destruct (exact_fraction m e) as [num den].
    destruct (shortest _ num den) as [[n k] d].
    destruct s.
    + exists "-"%char. eexists. split; [reflexivity | auto].
    + rewrite append_nil. apply format_digits_start.
Qed.

Lemma toFixed_not_unavailable (x : number) (d : Z) (out : string) :
  toFixed x d = Normal out -> out <> "N/A".
Proof.
  unfold toFixed.
  destruct ((d <? 0) || (100 <? d)) eqn:Ed; [discriminate|].
  apply orb_false_iff in Ed as [Ed _]. apply Z.ltb_ge in Ed.
  destruct (is_finite x) eqn:Ex; simpl.
  - destruct (Qle_bool _ _).
    + intros [= <-]. now apply starts_plainly_not_unavailable, Number_toString_start.
    + intros [= <-]. apply starts_plainly_not_unavailable.
      destruct (is_negative x).
      * exists "-"%char. eexists. split; [reflexivity | auto].
      * rewrite append_nil. now apply fixed_digits_start.
  - intros [= <-]. destruct x as [s|[]| |s m e]; discriminate.
Qed.

(** ** No leading zeros *)

Lemma pretty_char_nonzero (d : N) :
  (0 < d < 10)%N -> pretty_N_char d <> "0"%char.
Proof.
  intros H E. pose proof (pretty_char_code d ltac:(lia)) as Hc.
  rewrite E in Hc. change (code "0" - 48) with 0 in Hc. lia.
Qed.

Lemma pretty_go_leading (x : N) :
  x <> 0%N ->
  exists c r, pretty_N_go x "" = String c r /\ c <> "0"%char.
Proof.
  induction (N.lt_wf_0 x) as [x _ IH]. intros Hx.
  rewrite pretty_N_go_step, pretty_go_append by lia.
  destruct (decide (x `div` 10 = 0)%N) as [E|E].
  - rewrite E. change (pretty_N_go 0 "") with "". rewrite append_nil.
    do 2 eexists. split; [reflexivity|].
    apply pretty_char_nonzero.
    assert (x < 10)%N by (apply N.div_small_iff in E; lia).
    rewrite N.mod_small by lia. lia.
  - destruct (IH (x `div` 10)%N ltac:(apply N.div_lt; lia) E) as (c & r & -> & Hc).
    rewrite append_cons. eauto.
Qed.

Lemma digits_no_leading_zero (n : Z) (r : string) :
  digits n = String "0" r -> r = "".
Proof.
  unfold digits, pretty, pretty_N.
  destruct (decide (Z.to_N n = 0%N)) as [E|E].
  - now intros [= <-].
  - destruct (pretty_go_leading _ E) as (c & r' & -> & Hc).
    intros [= -> _]. contradiction.
Qed.

Lemma fixed_no_leading_zero (n f : Z) (c : ascii) (rest : string) :
  0 <= f ->
  fixed_digits n f = String "0" (String c rest) -> c = "."%char.
Proof.
  intros Hf. unfold fixed_digits.
  destruct (f =? 0) eqn:Ef.
  { intros E. apply digits_no_leading_zero in E. discriminate E. }
  apply Z.eqb_neq in Ef.
  set (m0 := digits n).
  destruct (Z.of_nat (String.length m0) <=? f) eqn:Ek.
  - apply Z.leb_le in Ek.
    rewrite length_append, length_zeros.
    replace (Z.to_nat (Z.of_nat (Z.to_nat (f + 1 - Z.of_nat (String.length m0))
                                 + String.length m0) - f)) with 1%nat by lia.
    destruct (Z.to_nat (f + 1 - Z.of_nat (String.length m0))) as [|k] eqn:Ez;
      [lia|].
    cbn [zeros]. rewrite !append_cons. cbn [take_string]. rewrite append_cons, append_nil.
    now intros [= <-].
  - apply Z.leb_gt in Ek.
    destruct m0 as [|c0 m1] eqn:Em; [simpl in Ek; lia|].
    destruct (Z.to_nat (Z.of_nat (String.length (String c0 m1)) - f)) as [|k] eqn:Et;
      [lia|].
    cbn [take_string]. rewrite append_cons.
    intros [= -> Hrest].
    apply digits_no_leading_zero in Em. subst m1. simpl in Ek. lia.
Qed.

Lemma signed_no_leading_zero (neg : bool) (n f : Z) :
  0 <= n -> 0 <= f ->
  no_leading_zero ((if neg then "-" else "") +:+ fixed_digits n f).
Proof.
  intros Hn Hf c rest. destruct neg.
  - change ("-" +:+ fixed_digits n f) with (String "-" (fixed_digits n f)).
    cbn [unsigned_part]. apply fixed_no_leading_zero, Hf.
  - rewrite append_nil.
    pose proof (read_fixed_digits n f Hn Hf) as Hr.
    destruct (fixed_digits n f) as [|c0 s] eqn:E; [discriminate|].
    pose proof (read_unsigned_no_sign c0 s _ Hr) as Hs.
    assert (unsigned_part (String c0 s) = String c0 s) as ->.
    { unfold unsigned_part.
      destruct c0 as [[] [] [] [] [] [] [] []]; try reflexivity.
      discriminate Hs. }
    rewrite <- E. apply fixed_no_leading_zero, Hf.
Qed.

End NumeralFacts.

(** * Theorems: the Metric Value Normalizer *)
Module NormalizerFacts.
Import JS FileUpload Statements.

Ltac unfold_bind := unfold bind, isNaN, Number_, div in *.

(** A denominator that passes the truthiness test is never [=== 0]. *)
Lemma truthy_not_zero (b : value) :
  ToBoolean b = true -> strict_equal b (VNum zero) = false.
Proof.
  destruct b as [| | b | x | s | l | o]; simpl; try reflexivity.
  intros H. apply negb_true_iff in H. apply orb_false_iff in H.
  destruct H as [_ H]. exact H.
Qed.

Lemma in_range (d : Z) : 0 <= d <= 100 -> (d <? 0) || (100 <? d) = false.
Proof.
  intros H. apply orb_false_iff. split; [apply Z.ltb_ge | apply Z.ltb_ge]; lia.
Qed.

Lemma below_limit (x : number) :
  (magnitude_of x < inject_Z (10 ^ 21))%Q ->
  Qle_bool (inject_Z (10 ^ 21)) (magnitude_of x) = false.
Proof.
  intros H. destruct (Qle_bool _ _) eqn:E; [|reflexivity].
  apply Qle_bool_iff in E. now apply Qlt_not_le in H.
Qed.

(** ** toDisplayNumber, which the code calls safeNumber *)

(** C1, as the specification states it, fails: Infinity is not a finite
    number, and safeNumber shows it as "Infinity", not as "N/A". *)
Lemma safeNumber_infinity_shown :
  is_finite Infinity = false
  /\ safeNumber (VNum Infinity) (Some 2) = Normal "Infinity"
  /\ safeNumber (VNum Infinity) (Some 2) <> Normal "N/A".
Proof. repeat split. discriminate. Qed.

(** C1, amended.  safeNumber returns "N/A" for undefined, for null and for
    every value whose conversion to a Number is NaN, whatever d is.  For a
    Number other than NaN the answer depends on d.  With 0 <= d <= 100 it
    passes an infinity on as "Infinity" or "-Infinity", and for a finite
    Number x below 10^21 in magnitude it returns the numeral, with d
    digits after the point, the sign of x and no leading zero, of the
    integer n nearest to |x| * 10^d (the larger one on a tie): x rounded to
    d decimal places.  With d below 0 or above 100 it throws the
    RangeError of toFixed. *)
Theorem safeNumber_display (v : value) (d : Z) :
  (v = VUndefined \/ v = VNull \/ ToNumber v = Normal NaN ->
   safeNumber v (Some d) = Normal "N/A")
  /\ (forall s, 0 <= d <= 100 -> v = VNum (S754_infinity s) ->
      safeNumber v (Some d) = Normal (if s then "-Infinity" else "Infinity"))
  /\ (forall x, v = VNum x -> is_finite x = true -> 0 <= d <= 100 ->
      (magnitude_of x < inject_Z (10 ^ 21))%Q ->
      exists out n,
        safeNumber v (Some d) = Normal out
        /\ read_numeral out = Some (is_negative x, n, Z.to_nat d)
        /\ no_leading_zero out
        /\ (inject_Z n - (1 # 2) <= magnitude_of x * inject_Z (10 ^ d))%Q
        /\ (magnitude_of x * inject_Z (10 ^ d) < inject_Z n + (1 # 2))%Q)
  /\ (forall x, v = VNum x -> is_nan x = false -> d < 0 \/ 100 < d ->
      safeNumber v (Some d) = Throw RangeError).
Proof.
  split; [|split; [|split]]; cycle 3.
  { intros x -> Hx Hd. unfold safeNumber, toFixed. simpl. rewrite Hx. simpl.
    assert ((d <? 0) || (100 <? d) = true) as ->; [|reflexivity].
    apply orb_true_iff.
    destruct Hd; [left; apply Z.ltb_lt | right; apply Z.ltb_lt]; lia. }
  - intros [->|[->|H]]; try reflexivity.
    unfold safeNumber.
    destruct (negb (strict_equal v VUndefined) && negb (strict_equal v VNull));
      [|reflexivity].
    unfold_bind. now rewrite H.
  - intros s Hd ->. unfold safeNumber, toFixed. simpl.
    now rewrite (in_range d Hd).
  - intros x -> Hfin Hd Hlim.
    exists ((if is_negative x then "-" else "")
            +:+ fixed_digits (nearest_scaled (magnitude_of x) d) d),
      (nearest_scaled (magnitude_of x) d).
    destruct (NumeralFacts.nearest_scaled_spec (magnitude_of x) d
                (NumeralFacts.magnitude_nonneg x) ltac:(lia)) as (Hn & Hlo & Hhi).
    split; [|split; [|split; [|split; assumption]]].
    + unfold safeNumber, toFixed. simpl.
      assert (is_nan x = false) as -> by (now destruct x).
      simpl. now rewrite (in_range d Hd), Hfin, (below_limit x Hlim).
    + apply NumeralFacts.read_signed_fixed_digits; [assumption | lia].
    + apply NumeralFacts.signed_no_leading_zero; [assumption | lia].
Qed.

Lemma safeNumber_display_witness :
  (exists out n,
     safeNumber (VNum (sample "12.3456")) (Some 2) = Normal out
     /\ read_numeral out = Some (false, n, 2%nat)
     /\ no_leading_zero out
     /\ (inject_Z n - (1 # 2)
         <= magnitude_of (sample "12.3456") * inject_Z (10 ^ 2))%Q
     /\ (magnitude_of (sample "12.3456") * inject_Z (10 ^ 2)
         < inject_Z n + (1 # 2))%Q)
  /\ safeNumber (VNum Infinity) (Some 101) = Throw RangeError.
Proof.
  split.
  - destruct (safeNumber_display (VNum (sample "12.3456")) 2) as (_ & _ & H & _).
    apply (H (sample "12.3456")); [reflexivity | reflexivity | lia |].
    vm_compute. reflexivity.
  - destruct (safeNumber_display (VNum Infinity) 101) as (_ & _ & _ & H).
    apply (H Infinity); [reflexivity | reflexivity | right; lia].
Defined.

(** The scenarios of the specification. *)
Example safeNumber_scenarios :
  safeNumber VUndefined (Some 2) = Normal "N/A"
  /\ safeNumber (VNum (sample "12.3456")) (Some 2) = Normal "12.35"
  /\ safeNumber (VNum (sample "-0.5")) (Some 0) = Normal "-1"
  /\ safeNumber (VNum (sample "1e21")) (Some 2) = Normal "1e+21"
  /\ safeNumber (VNum (sample "1")) (Some 101) = Throw RangeError
  /\ safeNumber (VNum (sample "3.14159")) None = Normal "3.14".
Proof. repeat split; vm_compute; reflexivity. Qed.

(** ** safeRatio, which the code calls safeDivide *)

(** With a truthy denominator safeDivide is the quotient, 0 standing in
    for NaN. *)
Lemma safeDivide_truthy (a b : value) (q : number) :
  ToBoolean b = true -> div a b = Normal q ->
  safeDivide a b = Normal (if is_nan q then zero else q).
Proof.
  intros Hb Hq. unfold safeDivide. rewrite Hb, Hq. simpl.
  rewrite (truthy_not_zero b Hb). simpl.
  destruct (is_nan q); reflexivity.
Qed.

(** C2, as the specification states it, fails: two finite Numbers whose
    quotient overflows give Infinity, which is not finite, and safeDivide
    returns it instead of 0. *)
Lemma safeDivide_overflow_kept :
  is_finite (sample "1e308") = true /\ is_finite (sample "0.1") = true
  /\ div (VNum (sample "1e308")) (VNum (sample "0.1")) = Normal Infinity
  /\ is_finite Infinity = false
  /\ safeDivide (VNum (sample "1e308")) (VNum (sample "0.1")) = Normal Infinity
  /\ safeDivide (VNum (sample "1e308")) (VNum (sample "0.1")) <> Normal zero.
Proof. repeat split; try (vm_compute; reflexivity). vm_compute. discriminate. Qed.

(** C2, amended.  safeDivide returns 0 when the denominator is falsy
    (zero, null, undefined, NaN, the empty string, false), without
    dividing, and when the quotient is NaN; for a truthy denominator it
    returns every other quotient as it is, the infinities included, and
    throws what the division throws.  In particular safeDivide(a, 0) and
    safeDivide(a, null) are 0 for every a. *)
Theorem safeDivide_fallback (a b : value) :
  (ToBoolean b = false -> safeDivide a b = Normal zero)
  /\ (forall q, ToBoolean b = true -> div a b = Normal q ->
      safeDivide a b = Normal (if is_nan q then zero else q))
  /\ (forall e, ToBoolean b = true -> div a b = Throw e ->
      safeDivide a b = Throw e)
  /\ safeDivide a (VNum zero) = Normal zero
  /\ safeDivide a VNull = Normal zero
  /\ safeDivide a VUndefined = Normal zero.
Proof.
  split; [|split; [|split; [|repeat split]]].
  - intros H. unfold safeDivide. now rewrite H.
  - intros q Hb Hq. now apply safeDivide_truthy.
  - intros e Hb He. unfold safeDivide. now rewrite Hb, He.
Qed.

Lemma safeDivide_fallback_witness :
  safeDivide (VNum (sample "2048")) (VNum (sample "1024"))
  = Normal (sample "2").
Proof.
  destruct (safeDivide_fallback (VNum (sample "2048")) (VNum (sample "1024")))
    as (_ & H & _).
  apply (H (sample "2")); reflexivity.
Defined.

(** ** toChartValue, which the code calls chartValue *)

(** C3, as the specification states it, fails: Infinity is non-finite and
    chartValue returns it, not null. *)
Lemma chartValue_infinity_kept :
  is_finite Infinity = false
  /\ chartValue (VNum Infinity) = Normal (VNum Infinity)
  /\ chartValue (VNum Infinity) <> Normal VNull.
Proof. repeat split. discriminate. Qed.

(** C3, amended.  For an input whose conversion to a Number completes,
    with x the Number it gives: chartValue returns null if and only if the
    input is null, undefined, or x is NaN; for every other input it
    returns x, which for an input that is a Number is the input unchanged,
    an infinity included. *)
Theorem chartValue_null_iff (v : value) (x : number) :
  ToNumber v = Normal x ->
  (chartValue v = Normal VNull <->
   v = VUndefined \/ v = VNull \/ is_nan x = true)
  /\ (~ (v = VUndefined \/ v = VNull \/ is_nan x = true) ->
      chartValue v = Normal (VNum x))
  /\ (forall y, v = VNum y -> is_nan y = false -> chartValue v = Normal v).
Proof.
  intros Hx.
  assert (Hcases : v = VUndefined \/ v = VNull
                   \/ chartValue v = Normal (if is_nan x then VNull else VNum x)
                      /\ v <> VUndefined /\ v <> VNull).
  { destruct v; auto; right; right; (split; [|split; discriminate]);
      unfold chartValue, isNaN, Number_; cbn -[ToNumber]; rewrite Hx;
      cbn; now destruct (is_nan x). }
  split; [|split].
  - split.
    + intros Hnull.
      destruct Hcases as [->|[->|(Hc & _ & _)]]; auto.
      rewrite Hc in Hnull. destruct (is_nan x); [auto | discriminate].
    + intros [->|[->|Hnan]]; try reflexivity.
      destruct Hcases as [->|[->|(Hc & _ & _)]]; try reflexivity.
      now rewrite Hc, Hnan.
  - intros Hnot.
    destruct Hcases as [->|[->|(Hc & _ & _)]]; try (exfalso; now auto).
    rewrite Hc. destruct (is_nan x) eqn:E; [exfalso; auto | reflexivity].
  - intros y -> Hy. simpl in Hx. injection Hx as ->.
    unfold chartValue. simpl. unfold_bind. simpl. now rewrite Hy.
Qed.

Lemma chartValue_null_iff_witness :
  (chartValue (VStr "abc") = Normal VNull <->
   VStr "abc" = VUndefined \/ VStr "abc" = VNull \/ is_nan NaN = true)
  /\ (~ (VStr "abc" = VUndefined \/ VStr "abc" = VNull \/ is_nan NaN = true) ->
      chartValue (VStr "abc") = Normal (VNum NaN))
  /\ (forall y, VStr "abc" = VNum y -> is_nan y = false ->
      chartValue (VStr "abc") = Normal (VStr "abc")).
Proof. apply (chartValue_null_iff (VStr "abc") NaN). reflexivity. Defined.

(** ** Numeric strings at the normalizer boundary *)

(** C10.  A string that StringToNumber reads as a finite Number x is not
    treated as unavailable: safeNumber formats x with the requested
    decimals, which is never "N/A", and chartValue returns x, not null. *)
Theorem numeric_string_coerced (s : string) (x : number) (d : Z) :
  StringToNumber s = x -> is_finite x = true -> 0 <= d <= 100 ->
  safeNumber (VStr s) (Some d) = toFixed x d
  /\ (exists out, safeNumber (VStr s) (Some d) = Normal out /\ out <> "N/A")
  /\ chartValue (VStr s) = Normal (VNum x)
  /\ chartValue (VStr s) <> Normal VNull.
Proof.
  intros Hs Hfin Hd.
  assert (Hnan : is_nan x = false) by (now destruct x).
  assert (Hsafe : safeNumber (VStr s) (Some d) = toFixed x d).
  { unfold safeNumber. simpl. unfold_bind. simpl. now rewrite Hs, Hnan. }
  assert (Hchart : chartValue (VStr s) = Normal (VNum x)).
  { unfold chartValue. simpl. unfold_bind. simpl. now rewrite Hs, Hnan. }
  split; [exact Hsafe | split; [|split; [exact Hchart|]]].
  - assert (Hout : exists out, toFixed x d = Normal out).
    { unfold toFixed. rewrite (in_range d Hd), Hfin. simpl.
      destruct (Qle_bool _ _); eexists; reflexivity. }
    destruct Hout as [out Hout]. exists out.
    split; [now rewrite Hsafe|].
    now apply (NumeralFacts.toFixed_not_unavailable x d).
  - rewrite Hchart. discriminate.
Qed.

Lemma numeric_string_coerced_witness :
  safeNumber (VStr "12.5") (Some 2) = toFixed (sample "12.5") 2
  /\ (exists out, safeNumber (VStr "12.5") (Some 2) = Normal out /\ out <> "N/A")
  /\ chartValue (VStr "12.5") = Normal (VNum (sample "12.5"))
  /\ chartValue (VStr "12.5") <> Normal VNull.
Proof.
  apply (numeric_string_coerced "12.5" (sample "12.5") 2);
    [reflexivity | reflexivity | lia].
Defined.

Example numeric_string_shown :
  safeNumber (VStr "12.5") (Some 2) = Normal "12.50"
  /\ safeNumber (VStr " 7 ") (Some 1) = Normal "7.0"
  /\ safeNumber (VStr "") (Some 0) = Normal "0"
  /\ safeNumber (VStr "twelve") (Some 2) = Normal "N/A".
Proof. repeat split; vm_compute; reflexivity. Qed.

End NormalizerFacts.

(** * Theorems: the Comparison Schema Builder and the Presentation Layer *)
Module PresentationFacts.
Import JS FileUpload Statements.

Lemma primitive_coerces (v : value) :
  (forall l, v <> VArr l) -> (forall o, v <> VObj o) -> coerces v.
Proof.
  intros Ha Ho. destruct v; try (eexists; reflexivity).
  - now destruct (Ha elements).
  - now destruct (Ho properties).
Qed.

Lemma get_truthy (v : value) (key : string) :
  ToBoolean v = true -> exists w, get v key = Normal w.
Proof.
  destruct v; try discriminate; intros _; unfold get;
    repeat case_match; eauto.
Qed.

Lemma get_optional_total (v : value) (key : string) :
  exists w, get_optional v key = Normal w.
Proof.
  destruct v; unfold get_optional, get; repeat case_match; eauto.
Qed.

Lemma engine_field_total (data : value) (engine field : string) :
  ToBoolean data = true -> exists v, engine_field data engine field = Normal v.
Proof.
  intros H. unfold engine_field.
  destruct (get_truthy data engine H) as [e ->]. simpl.
  apply get_optional_total.
Qed.

Lemma chartValue_total (v : value) :
  coerces v -> exists r, chartValue v = Normal r.
Proof.
  intros [x Hx]. unfold chartValue, isNaN, Number_.
  destruct (negb (strict_equal v VUndefined) && negb (strict_equal v VNull));
    [|eauto].
  rewrite Hx. cbn. destruct (is_nan x); eauto.
Qed.

Lemma safeDivide_total (a : value) (y : number) :
  coerces a -> exists q, safeDivide a (VNum y) = Normal q.
Proof.
  intros [x Hx].
  destruct (ToBoolean (VNum y)) eqn:E.
  - eexists. apply NormalizerFacts.safeDivide_truthy; [exact E|].
    unfold div. rewrite Hx. reflexivity.
  - unfold safeDivide. rewrite E. eauto.
Qed.

Lemma plain_row_total (data : value) (label sfield mfield : string) :
  ToBoolean data = true -> metrics_coerce data ->
  exists r, plain_row data label sfield mfield = Normal r /\ name r = label.
Proof.
  intros Ht Hc. unfold plain_row.
  destruct (engine_field_total data "scidb" sfield Ht) as [s Hs].
  destruct (engine_field_total data "mapreduce" mfield Ht) as [m Hm].
  destruct (chartValue_total s (Hc _ _ _ Hs)) as [s' Hs'].
  destruct (chartValue_total m (Hc _ _ _ Hm)) as [m' Hm'].
  rewrite Hs. cbn [bind]. rewrite Hs'. cbn [bind].
  rewrite Hm. cbn [bind]. rewrite Hm'. cbn [bind].
  eexists. split; reflexivity.
Qed.

Lemma scaled_row_total (data : value) (label sfield mfield : string) (by_ : Z) :
  ToBoolean data = true -> metrics_coerce data ->
  exists r, scaled_row data label sfield mfield by_ = Normal r /\ name r = label.
Proof.
  intros Ht Hc. unfold scaled_row.
  destruct (engine_field_total data "scidb" sfield Ht) as [s Hs].
  destruct (engine_field_total data "mapreduce" mfield Ht) as [m Hm].
  destruct (safeDivide_total s (of_Z by_) (Hc _ _ _ Hs)) as [sq Hsq].
  destruct (safeDivide_total m (of_Z by_) (Hc _ _ _ Hm)) as [mq Hmq].
  destruct (chartValue_total (VNum sq) ltac:(eexists; reflexivity)) as [s' Hs'].
  destruct (chartValue_total (VNum mq) ltac:(eexists; reflexivity)) as [m' Hm'].
  rewrite Hs. cbn [bind]. rewrite Hsq. cbn [bind]. rewrite Hs'. cbn [bind].
  rewrite Hm. cbn [bind]. rewrite Hmq. cbn [bind]. rewrite Hm'. cbn [bind].
  eexists. split; reflexivity.
Qed.

(** ** The Comparison Schema Builder *)

(** The rows of a response whose fields convert.  Whatever fields of either
    engine are missing, the three builders return the same nine rows, under
    the same names and in the same order; only the values vary.  [data] is
    a response the server sent (an object, hence truthy) whose metric
    fields, where present, convert to Numbers without a fault. *)
Theorem schema_rows_fixed (data : value) :
  ToBoolean data = true -> metrics_coerce data ->
  exists perf dat sys,
    performanceMetrics data = Normal perf
    /\ dataMetrics data = Normal dat
    /\ systemMetrics data = Normal sys
    /\ name <$> perf
       = ["Execution Time (s)"; "Memory (MB)"; "CPU (%)"; "Throughput (rows/s)"]
    /\ name <$> dat
       = ["Rows Processed"; "Columns"; "File Size (KB)"; "Avg Row Size (bytes)"]
    /\ name <$> sys = ["Memory Usage (%)"].
Proof.
  intros Ht Hc. unfold performanceMetrics, dataMetrics, systemMetrics.
  rewrite Ht.
  destruct (plain_row_total data "Execution Time (s)" "execution_time_seconds"
              "execution_time_seconds" Ht Hc) as (p1 & -> & <-).
  destruct (scaled_row_total data "Memory (MB)" "memory_usage_snapshot_mb"
              "memory_usage_avg_mb" 1 Ht Hc) as (p2 & -> & <-).
  destruct (plain_row_total data "CPU (%)" "cpu_percent_snapshot"
              "cpu_percent_avg" Ht Hc) as (p3 & -> & <-).
  destruct (plain_row_total data "Throughput (rows/s)" "throughput_rows_per_sec"
              "throughput_rows_per_sec" Ht Hc) as (p4 & -> & <-).
  destruct (plain_row_total data "Rows Processed" "row_count" "row_count"
              Ht Hc) as (d1 & -> & <-).
  destruct (plain_row_total data "Columns" "column_count" "column_count"
              Ht Hc) as (d2 & -> & <-).
  destruct (scaled_row_total data "File Size (KB)" "file_size_bytes"
              "file_size_bytes" 1024 Ht Hc) as (d3 & -> & <-).
  destruct (plain_row_total data "Avg Row Size (bytes)" "avg_row_size_bytes"
              "avg_row_size_bytes" Ht Hc) as (d4 & -> & <-).
  destruct (plain_row_total data "Memory Usage (%)" "memory_percent_snapshot"
              "memory_percent_avg" Ht Hc) as (s1 & -> & <-).
  cbn [bind]. do 3 eexists. repeat split; reflexivity.
Qed.

Lemma own_property_elem (key : string) (props : list (string * value)) (v : value) :
  own_property key props = Some v -> In (key, v) props.
Proof.
  induction props as [|[k w] props IH]; simpl; [discriminate|].
  destruct (String.eqb k key) eqn:E.
  - apply String.eqb_eq in E. intros [= ->]. left. now subst.
  - intros H. right. now apply IH.
Qed.

(** Reading a field of an object gives undefined or one of its values. *)
Lemma get_object (props : list (string * value)) (key : string) :
  get (VObj props) key = Normal VUndefined
  \/ exists v, In (key, v) props /\ get (VObj props) key = Normal v.
Proof.
  unfold get. destruct (own_property key props) as [v|] eqn:E; [|now left].
  right. exists v. split; [now apply own_property_elem | reflexivity].
Qed.

Lemma partial_response_coerces : metrics_coerce partial_response.
Proof.
  intros engine field v H. unfold engine_field, partial_response in H.
  destruct (get_object
              [("scidb", VObj [("execution_time_seconds",
                                VNum (sample "1.5"));
                               ("row_count", VStr "12")]);
               ("mapreduce", VNull)] engine) as [E|(e & Hin & E)];
    rewrite E in H; cbn [bind get_optional] in H.
  - injection H as <-. eexists; reflexivity.
  - destruct Hin as [[= <- <-]|[[= <- <-]|[]]]; cbn [get_optional] in H.
    + destruct (get_object
                  [("execution_time_seconds", VNum (sample "1.5"));
                   ("row_count", VStr "12")] field) as [F|(f & Hin & F)];
        rewrite F in H; injection H as <-; [eexists; reflexivity|].
      destruct Hin as [[= <- <-]|[[= <- <-]|[]]]; eexists; reflexivity.
    + injection H as <-. eexists; reflexivity.
Qed.

Lemma schema_rows_fixed_witness :
  exists perf dat sys,
    performanceMetrics partial_response = Normal perf
    /\ dataMetrics partial_response = Normal dat
    /\ systemMetrics partial_response = Normal sys
    /\ name <$> perf
       = ["Execution Time (s)"; "Memory (MB)"; "CPU (%)"; "Throughput (rows/s)"]
    /\ name <$> dat
       = ["Rows Processed"; "Columns"; "File Size (KB)"; "Avg Row Size (bytes)"]
    /\ name <$> sys = ["Memory Usage (%)"].
Proof.
  apply (schema_rows_fixed partial_response);
    [reflexivity | exact partial_response_coerces].
Defined.

(** C4, where the code departs from it.  A field that holds an object with
    a property of its own called toString cannot be converted to a Number:
    isNaN throws a TypeError on it inside chartValue, which was to make
    every value a number or null, and performanceMetrics, instead of
    emitting its four rows, throws, and the component with it; the other
    two builders, which do not read the field, return their rows. *)
Theorem rows_of_unconvertible_field :
  ToBoolean unconvertible_response = true
  /\ engine_field unconvertible_response "scidb" "execution_time_seconds"
     = Normal (VObj [("toString", VNull)])
  /\ chartValue (VObj [("toString", VNull)]) = Throw TypeError
  /\ performanceMetrics unconvertible_response = Throw TypeError
  /\ (exists dat sys,
        dataMetrics unconvertible_response = Normal dat
        /\ systemMetrics unconvertible_response = Normal sys
        /\ name <$> dat
           = ["Rows Processed"; "Columns"; "File Size (KB)";
              "Avg Row Size (bytes)"]
        /\ name <$> sys = ["Memory Usage (%)"])
  /\ (forall chosen busy,
        FileUpload {| file := chosen; response := unconvertible_response;
                      loading := busy |} = Throw TypeError).
Proof.
  split; [reflexivity | split; [reflexivity | split; [reflexivity|]]].
  split; [reflexivity | split].
  - do 2 eexists. repeat split; vm_compute; reflexivity.
  - intros chosen busy. reflexivity.
Qed.

(** With every field missing the rows are still there; their values are
    null, except where safeDivide has put 0 in the place of a quotient. *)
Example rows_of_empty_response :
  performanceMetrics (VObj [])
  = Normal [ {| name := "Execution Time (s)"; scidb := VNull; mapreduce := VNull |};
             {| name := "Memory (MB)"; scidb := VNum zero; mapreduce := VNum zero |};
             {| name := "CPU (%)"; scidb := VNull; mapreduce := VNull |};
             {| name := "Throughput (rows/s)"; scidb := VNull; mapreduce := VNull |} ].
Proof. vm_compute. reflexivity. Qed.

(** ** Rendering without a comparison result *)

(** C8.  With [response] null the three transformations return the empty
    list and the component returns the heading and the upload form, with
    null where the summary and the charts would be: nothing is thrown. *)
Theorem null_response_renders_form_only (chosen : option string) (busy : bool) :
  performanceMetrics VNull = Normal []
  /\ dataMetrics VNull = Normal []
  /\ systemMetrics VNull = Normal []
  /\ FileUpload {| file := chosen; response := VNull; loading := busy |}
     = Normal
         (EElem "div"
            [style [("maxWidth", VStr "1200px"); ("margin", VStr "40px auto");
                    ("padding", VStr "20px")]]
            [EElem "h2" [] [EText "File Upload & Database Benchmark"];
             upload_form {| file := chosen; response := VNull; loading := busy |};
             EValue VNull]).
Proof. repeat split. Qed.

(** ** The tooltip *)

Lemma undefined_only (v : value) :
  strict_equal v VUndefined = true -> v = VUndefined.
Proof. destruct v; try discriminate. reflexivity. Qed.

Lemma toFixed_two (x : number) : exists out, toFixed x 2 = Normal out.
Proof.
  unfold toFixed. cbn [Z.ltb Z.compare orb].
  destruct (negb (is_finite x)); [eauto|].
  destruct (Qle_bool _ _); eauto.
Qed.

Lemma shown_value_total (value : value) :
  exists shown,
    (if String.eqb (typeof value) "number" then
       nan <- isNaN value;
       if negb nan && negb (strict_equal value VNull)
       then call_toFixed value 2
       else Normal "N/A"
     else Normal "N/A") = Normal shown
    /\ ((forall x, value = VNum x -> is_nan x = true) -> shown = "N/A").
Proof.
  destruct value as [| |b|x|s|l|o];
    try (exists "N/A"; split; reflexivity).
  cbn -[toFixed]. destruct (is_nan x) eqn:E; cbn -[toFixed].
  - exists "N/A". split; reflexivity.
  - destruct (toFixed_two x) as [out ->]. exists out. split; [reflexivity|].
    intros H. specialize (H x eq_refl). congruence.
Qed.

Lemma tooltip_entry_rendered (entry : value) (index : nat) :
  exists r, entry_rendered entry index r.
Proof.
  unfold entry_rendered, tooltip_entry.
  destruct (ToBoolean entry) eqn:Ht; cbn [negb].
  - destruct (get_truthy entry "color" Ht) as [color Hcolor].
    destruct (get_truthy entry "name" Ht) as [nm Hname].
    destruct (get_truthy entry "value" Ht) as [val Hval].
    rewrite Hcolor. cbn [bind].
    destruct (strict_equal color VUndefined) eqn:Ec.
    + apply undefined_only in Ec. subst color.
      eexists. split; [reflexivity|]. split; [reflexivity|].
      intros c n v _ [= <-] Hc. now destruct Hc.
    + rewrite Hname, Hval. cbn [bind].
      destruct (shown_value_total val) as (shown & -> & Hshown). cbn [bind].
      eexists. split; [reflexivity|]. split.
      * intros [H|[= ->]]; discriminate.
      * intros c n v _ [= <-] _ [= <-] [= <-] Hv. now rewrite (Hshown Hv).
  - eexists. split; [reflexivity|]. split; [reflexivity|].
    intros c n v H. discriminate H.
Qed.

Lemma map_from_rendered (entries : list value) (start : nat) :
  exists rendered,
    map_from tooltip_entry start entries = Normal rendered
    /\ forall i entry, entries !! i = Some entry ->
         exists r, rendered !! i = Some r
                   /\ entry_rendered entry (start + i) r.
Proof.
  revert start. induction entries as [|e entries IH]; intros start.
  - exists []. split; [reflexivity|]. intros i entry H. discriminate H.
  - destruct (tooltip_entry_rendered e start) as [r Hr].
    destruct (IH (S start)) as (rs & Hrs & Hall).
    exists (r :: rs). split.
    + simpl. destruct Hr as [-> _]. cbn [bind]. rewrite Hrs. reflexivity.
    + intros [|i] entry H; simpl in H.
      * injection H as <-. exists r. split; [reflexivity|].
        now rewrite Nat.add_0_r.
      * destruct (Hall i entry H) as (r' & Hr' & He).
        exists r'. split; [exact Hr'|].
        now replace (start + S i)%nat with (S start + i)%nat by lia.
Qed.

(** C9.  For every payload that is a list, whatever its entries are,
    CustomTooltip returns normally.  Each entry is rendered on its own:
    a falsy entry (undefined among them) and an entry without a color as
    nothing, an entry whose value is not a Number or is NaN with "N/A" in
    the value's place.  The tooltip is the label followed by these, or
    nothing when it is not active or the list is empty. *)
Theorem tooltip_never_throws (active label : value) (entries : list value) :
  exists rendered,
    (forall i entry, entries !! i = Some entry ->
       exists r, rendered !! i = Some r /\ entry_rendered entry i r)
    /\ CustomTooltip active (VArr entries) label
       = Normal
           (if ToBoolean active && ToBoolean (VNum (of_nat (length entries)))
            then EElem "div"
                   [style [("padding", VStr "8px");
                           ("border", VStr "1px solid #ccc");
                           ("backgroundColor", VStr "white")]]
                   [EElem "p" [] [EValue label]; EList rendered]
            else EValue VNull).
Proof.
  destruct (map_from_rendered entries 0) as (rendered & Hmap & Hall).
  exists rendered. split; [exact Hall|].
  unfold CustomTooltip.
  change (ToBoolean (VArr entries)) with true. rewrite andb_true_r.
  destruct (ToBoolean active); [|reflexivity].
  change (get (VArr entries) "length")
    with (Normal (VNum (of_nat (length entries)))).
  cbn [bind andb].
  destruct (ToBoolean (VNum (of_nat (length entries)))); [|reflexivity].
  unfold call_map. rewrite Hmap. reflexivity.
Qed.

(** A payload with an undefined entry, an entry without a color, one
    whose value is NaN, one whose value is a string, and a sound one. *)
Example tooltip_of_malformed_payload :
  exists rendered,
    CustomTooltip (VBool true)
      (VArr [VUndefined;
             VObj [("name", VStr "scidb"); ("value", VNum (sample "1"))];
             VObj [("name", VStr "scidb"); ("value", VNum NaN);
                   ("color", VStr "#4f46e5")];
             VObj [("name", VStr "mapreduce"); ("value", VStr "7");
                   ("color", VStr "#10b981")];
             VObj [("name", VStr "mapreduce"); ("value", VNum (sample "1.234"));
                   ("color", VStr "#10b981")]])
      (VStr "CPU (%)")
    = Normal (EElem "div"
                [style [("padding", VStr "8px");
                        ("border", VStr "1px solid #ccc");
                        ("backgroundColor", VStr "white")]]
                [EElem "p" [] [EValue (VStr "CPU (%)")]; EList rendered])
    /\ (fun e => match e with
                 | EElem _ _ [_; _; _; shown] => shown
                 | other => other
                 end) <$> rendered
       = [EValue VNull; EValue VNull; EText "N/A"; EText "N/A"; EText "1.23"].
Proof. eexists. split; vm_compute; reflexivity. Qed.

(** A payload that is not a list but has a length: the call of [map] on
    it throws. *)
Example tooltip_of_string_payload :
  CustomTooltip (VBool true) (VStr "abc") VNull = Throw TypeError.
Proof. vm_compute. reflexivity. Qed.

End PresentationFacts.

(** * Theorems: the Comparison Report Store *)
Module ReportFacts.
Import JS Report Statements.













(** A report without cpu_diff values that can be cast, and one whose
    faster_system is outside the enum. *)
Example create_names_the_path :
  createReport empty_database 0
    [("faster_system", VStr "scidb"); ("cpu_diff", VArr [])]
  = Some (empty_database,
          {| status := 400;
             body := ValidationError
                       [("execution_time_diff", Required); ("cpu_diff", CastFailed);
                        ("memory_diff", Required); ("disk_read_diff", Required);
                        ("disk_write_diff", Required)] |})
  /\ createReport empty_database 0 outsider_report
     = Some (empty_database,
             {| status := 400;
                body := ValidationError [("faster_system", NotInEnum)] |}).
Proof. split; vm_compute; reflexivity. Qed.

(** What the casts take: a numeric string and a boolean on a Number path,
    a document-like object with an _id on either kind of path; and what
    they refuse. *)
Example cast_examples :
  cast SchemaNumber (VStr "3.2") = Some (VNum (sample "3.2"))
  /\ cast SchemaNumber (VBool true) = Some (VNum (sample "1"))
  /\ cast SchemaNumber (VStr "") = Some VNull
  /\ cast SchemaNumber (VObj [("_id", VNum zero)]) = Some (VNum zero)
  /\ cast SchemaString (VObj [("_id", VStr "scidb")]) = Some (VStr "scidb")
  /\ cast SchemaString (VObj [("_id", VNum zero)]) = None
  /\ cast SchemaString (VObj []) = None
  /\ cast SchemaNumber (VObj []) = None
  /\ cast SchemaNumber (VArr [VNum zero]) = None
  /\ cast SchemaNumber (VStr "fast") = None.
Proof. repeat split; vm_compute; reflexivity. Qed.

End ReportFacts.

(** * Theorems: the Upload Ingress *)
Module DatasetsFacts.
Import JS Datasets Statements.

Lemma named_one (part : file_part) :
  originalname part <> "" -> named [part] = [part].
Proof.
  intros H. unfold named. cbn [List.filter].
  destruct (String.eqb_spec (originalname part) ""); [contradiction | reflexivity].
Qed.

(** A request in which no file part has a name is answered as one without
    a file, and nothing is drawn or stored. *)
Lemma unnamed_request (w : world) (parts : list file_part) :
  named parts = [] -> post_upload w parts = (w, no_file).
Proof.
  intros H. unfold post_upload, upload_single. rewrite H. reflexivity.
Qed.

(** What the route does with one named file under the field [dataset] that
    is within the limit: two identifiers are drawn, the first for the name
    on disk, the second for the upload. *)
Lemma accepted_upload (w : world) (original : string) (sz : Z) :
  original <> "" -> sz <= fileSize ->
  post_upload w [{| fieldname := "dataset"; originalname := original; size := sz |}]
  = ({| uuids := uuids w; drawn := S (S (drawn w));
        uploads := (uuids w (drawn w) +:+ extname original, sz) :: uploads w |},
     uploaded (uuids w (S (drawn w)))
              (uuids w (drawn w) +:+ extname original) sz).
Proof.
  intros Hname Hsz. unfold post_upload, upload_single.
  rewrite named_one by exact Hname.
  unfold storage_filename, uuidv4.
  cbn [fieldname originalname size String.eqb Ascii.eqb Bool.eqb negb uuids drawn
       uploads].
  destruct (fileSize <? sz) eqn:E; [apply Z.ltb_lt in E; lia|].
  reflexivity.
Qed.


(** C6.  A request without a file (one whose file parts, if any, have no
    file name) is answered 400 with an error object; a file sent under
    [dataset] whose size is at most 5 GiB is stored and answered with 201
    and message, uploadId, filename, path and size; a larger one is refused
    by the size limit, before the handler runs, and is not kept. *)
Theorem upload_responses (w : world) (parts : list file_part)
    (original : string) (sz : Z) :
  fileSize = 5 * 1024 ^ 3
  /\ post_upload w [] = (w, no_file)
  /\ (named parts = [] -> post_upload w parts = (w, no_file))
  /\ (original <> "" -> 0 <= sz <= fileSize ->
      exists w' uploadId name,
        post_upload w [{| fieldname := "dataset"; originalname := original;
                          size := sz |}]
        = (w', uploaded uploadId name sz)
        /\ In (name, sz) (uploads w'))
  /\ (original <> "" -> fileSize < sz ->
      exists w',
        post_upload w [{| fieldname := "dataset"; originalname := original;
                          size := sz |}]
        = (w', {| status := 500; body := ErrorPage LIMIT_FILE_SIZE |})
        /\ uploads w' = uploads w).
Proof.
  split; [reflexivity | split; [reflexivity | split; [|split]]].
  - apply unnamed_request.
  - intros Hname [_ Hsz]. do 3 eexists.
    rewrite (accepted_upload w original sz Hname Hsz).
    split; [reflexivity | now left].
  - intros Hname Hsz. unfold post_upload, upload_single.
    rewrite named_one by exact Hname.
    unfold storage_filename, uuidv4.
    cbn [fieldname originalname size String.eqb Ascii.eqb Bool.eqb negb uuids
         drawn uploads].
    apply Z.ltb_lt in Hsz. rewrite Hsz. eexists. split; reflexivity.
Qed.

Lemma upload_responses_witness :
  post_upload fresh_world
    [{| fieldname := "dataset"; originalname := ""; size := 0 |}]
  = (fresh_world, no_file)
  /\ (exists w' uploadId name,
        post_upload fresh_world
          [{| fieldname := "dataset"; originalname := "rows.csv"; size := 2048 |}]
        = (w', uploaded uploadId name 2048)
        /\ In (name, 2048) (uploads w'))
  /\ (exists w',
        post_upload fresh_world
          [{| fieldname := "dataset"; originalname := "rows.csv";
              size := 6 * 1024 ^ 3 |}]
        = (w', {| status := 500; body := ErrorPage LIMIT_FILE_SIZE |})
        /\ uploads w' = uploads fresh_world).
Proof.
  split; [|split].
  - destruct (upload_responses fresh_world
                [{| fieldname := "dataset"; originalname := ""; size := 0 |}]
                "rows.csv" 2048) as (_ & _ & H & _).
    apply H. reflexivity.
  - destruct (upload_responses fresh_world [] "rows.csv" 2048)
      as (_ & _ & _ & H & _).
    apply H; [discriminate | unfold fileSize; lia].
  - destruct (upload_responses fresh_world [] "rows.csv" (6 * 1024 ^ 3))
      as (_ & _ & _ & _ & H).
    apply H; [discriminate | unfold fileSize; lia].
Defined.




Example stored_name_keeps_extension :
  extname "rows.csv" = ".csv" /\ extname "archive.tar.gz" = ".gz"
  /\ extname "README" = "" /\ extname ".env" = "".
Proof. repeat split; vm_compute; reflexivity. Qed.

End DatasetsFacts.

(** * More on the Metric Value Normalizer *)
Module NormalizerInvariants.
Import JS FileUpload Statements.

Lemma bind_normal {A B} (c : completion A) (k : A -> completion B) (b : B) :
  bind c k = Normal b -> exists a, c = Normal a /\ k a = Normal b.
Proof. destruct c as [a|e]; simpl; [eauto | discriminate]. Qed.

(** Outside undefined and null, chartValue is the conversion with null in
    the place of NaN. *)
Lemma chartValue_converts (v : value) :
  v <> VUndefined -> v <> VNull ->
  chartValue v = (x <- ToNumber v; Normal (if is_nan x then VNull else VNum x)).
Proof.
  intros Hu Hn. unfold chartValue, isNaN, Number_.
  assert (negb (strict_equal v VUndefined) && negb (strict_equal v VNull) = true)
    as -> by (destruct v; solve [reflexivity | congruence]).
  destruct (ToNumber v) as [x|e]; cbn [bind]; [|reflexivity].
  destruct (is_nan x); reflexivity.
Qed.

(** Outside undefined and null, safeNumber is toFixed of the conversion
    with "N/A" in the place of NaN. *)
Lemma safeNumber_converts (v : value) (d : Z) :
  v <> VUndefined -> v <> VNull ->
  safeNumber v (Some d)
  = (x <- ToNumber v; if is_nan x then Normal "N/A" else toFixed x d).
Proof.
  intros Hu Hn. unfold safeNumber, isNaN, Number_.
  assert (negb (strict_equal v VUndefined) && negb (strict_equal v VNull) = true)
    as -> by (destruct v; solve [reflexivity | congruence]).
  cbn [default from_option].
  destruct (ToNumber v) as [x|e]; cbn [bind]; [|reflexivity].
  destruct (is_nan x); reflexivity.
Qed.

Lemma absent_cases (v : value) :
  v = VUndefined \/ v = VNull \/ (v <> VUndefined /\ v <> VNull).
Proof. destruct v; auto; right; right; split; discriminate. Qed.

(** X1.  Whatever chartValue returns is null or a Number other than NaN:
    a chart never receives NaN, undefined or a string. *)
Theorem chartValue_plottable (v r : value) :
  chartValue v = Normal r -> plottable r.
Proof.
  destruct (absent_cases v) as [->|[->|[Hu Hn]]].
  - intros [= <-]. now left.
  - intros [= <-]. now left.
  - rewrite (chartValue_converts v Hu Hn). intros H.
    apply bind_normal in H as (x & _ & H).
    destruct (is_nan x) eqn:E; injection H as <-; [now left|].
    right. eauto.
Qed.

Lemma chartValue_plottable_witness :
  plottable (VNum (sample "12.5")).
Proof. apply (chartValue_plottable (VStr "12.5")). reflexivity. Defined.

(** X2.  safeDivide never returns NaN. *)
Theorem safeDivide_never_nan (a b : value) (q : number) :
  safeDivide a b = Normal q -> is_nan q = false.
Proof.
  destruct (ToBoolean b) eqn:Hb.
  - destruct (div a b) as [q'|e] eqn:Hq.
    + rewrite (NormalizerFacts.safeDivide_truthy a b q' Hb Hq).
      destruct (is_nan q') eqn:E; intros [= <-]; [reflexivity | exact E].
    + unfold safeDivide. rewrite Hb, Hq. discriminate.
  - unfold safeDivide. rewrite Hb. now intros [= <-].
Qed.

Lemma safeDivide_never_nan_witness :
  is_nan zero = false.
Proof.
  apply (safeDivide_never_nan (VStr "rows") (VNum (sample "1024"))).
  vm_compute. reflexivity.
Defined.

(** What toFixed writes for a Number other than NaN. *)
Lemma toFixed_shape (x : number) (d : Z) (out : string) :
  is_nan x = false -> toFixed x d = Normal out ->
  out = "Infinity" \/ out = "-Infinity" \/ starts_plainly out.
Proof.
  intros Hx. unfold toFixed.
  destruct ((d <? 0) || (100 <? d)) eqn:Ed; [discriminate|].
  apply orb_false_iff in Ed as [Ed _]. apply Z.ltb_ge in Ed.
  destruct (is_finite x) eqn:Ef; simpl.
  - destruct (Qle_bool _ _); intros [= <-]; right; right.
    + now apply NumeralFacts.Number_toString_start.
    + destruct (is_negative x).
      * exists "-"%char. eexists. split; [reflexivity | auto].
      * rewrite NumeralFacts.append_nil. now apply NumeralFacts.fixed_digits_start.
  - intros [= <-]. destruct x as [s|[]| |s m e]; try discriminate; auto.
Qed.

Lemma safeNumber_default (v : value) (d : option Z) :
  safeNumber v d = safeNumber v (Some (default 2 d)).
Proof. destruct d; reflexivity. Qed.

(** X3.  What safeNumber returns is "N/A", "Infinity", "-Infinity", or a
    string that begins with a digit or a minus sign; it is never "NaN" and
    never empty. *)
Theorem safeNumber_never_shows_nan (v : value) (d : option Z) (out : string) :
  safeNumber v d = Normal out ->
  (out = "N/A" \/ out = "Infinity" \/ out = "-Infinity" \/ starts_plainly out)
  /\ out <> "NaN" /\ out <> "".
Proof.
  intros H.
  assert (Hshape : out = "N/A" \/ out = "Infinity" \/ out = "-Infinity"
                   \/ starts_plainly out).
  { rewrite safeNumber_default in H.
    destruct (absent_cases v) as [->|[->|[Hu Hn]]];
      try (injection H as <-; now left).
    rewrite (safeNumber_converts v _ Hu Hn) in H.
    apply bind_normal in H as (x & _ & H).
    destruct (is_nan x) eqn:E; [injection H as <-; now left|].
    right. now apply (toFixed_shape x (default 2 d)). }
  split; [exact Hshape|].
  destruct Hshape as [->|[->|[->|(c & rest & -> & [Hc| ->])]]];
    split; try discriminate;
    intros [= -> _]; discriminate Hc.
Qed.

Lemma safeNumber_never_shows_nan_witness :
  ("Infinity" = "N/A" \/ "Infinity" = "Infinity" \/ "Infinity" = "-Infinity"
   \/ starts_plainly "Infinity")
  /\ "Infinity" <> "NaN" /\ "Infinity" <> "".
Proof.
  apply (safeNumber_never_shows_nan (VNum Infinity) None). reflexivity.
Defined.

(** X4.  A number of decimals outside 0..100 makes safeNumber throw a
    RangeError for every value it would format, and still gives "N/A" for
    the values it does not format. *)
Theorem safeNumber_decimals_out_of_range (v : value) (x : number) (d : Z) :
  d < 0 \/ 100 < d -> ToNumber v = Normal x ->
  safeNumber v (Some d)
  = if strict_equal v VUndefined || strict_equal v VNull || is_nan x
    then Normal "N/A" else Throw RangeError.
Proof.
  intros Hd Hx.
  destruct (absent_cases v) as [->|[->|[Hu Hn]]]; try reflexivity.
  rewrite (safeNumber_converts v d Hu Hn), Hx. cbn [bind].
  assert (strict_equal v VUndefined || strict_equal v VNull = false) as ->
    by (destruct v; solve [reflexivity | congruence]).
  cbn [orb]. destruct (is_nan x); [reflexivity|].
  unfold toFixed.
  assert ((d <? 0) || (100 <? d) = true) as ->; [|reflexivity].
  apply orb_true_iff. destruct Hd; [left; apply Z.ltb_lt | right; apply Z.ltb_lt]; lia.
Qed.

Lemma safeNumber_decimals_out_of_range_witness :
  safeNumber (VStr "12.5") (Some 101) = Throw RangeError.
Proof.
  apply (safeNumber_decimals_out_of_range (VStr "12.5") (sample "12.5") 101);
    [right; lia | reflexivity].
Defined.

(** X5.  The card and the chart agree on what is unavailable: for a value
    that converts and a number of decimals within 0..100, safeNumber
    returns "N/A" exactly when chartValue returns null. *)
Theorem unavailable_in_card_and_chart (v : value) (x : number) (d : Z) :
  ToNumber v = Normal x -> 0 <= d <= 100 ->
  (safeNumber v (Some d) = Normal "N/A" <-> chartValue v = Normal VNull).
Proof.
  intros Hx Hd.
  destruct (absent_cases v) as [->|[->|[Hu Hn]]]; [now split | now split |].
  rewrite (safeNumber_converts v d Hu Hn), (chartValue_converts v Hu Hn), Hx.
  cbn [bind]. destruct (is_nan x) eqn:E; [now split|].
  split; [|discriminate].
  intros H. now destruct (NumeralFacts.toFixed_not_unavailable x d "N/A" H).
Qed.

Lemma unavailable_in_card_and_chart_witness :
  safeNumber (VStr "n/a") (Some 1) = Normal "N/A"
  <-> chartValue (VStr "n/a") = Normal VNull.
Proof.
  apply (unavailable_in_card_and_chart (VStr "n/a") NaN 1); [reflexivity | lia].
Defined.


(** The cases of a result of safeDivide. *)
Lemma safeDivide_cases (a b : value) (q : number) :
  safeDivide a b = Normal q ->
  (ToBoolean b = false /\ q = zero)
  \/ (ToBoolean b = true
      /\ exists q', div a b = Normal q' /\ q = if is_nan q' then zero else q').
Proof.
  destruct (ToBoolean b) eqn:Hb.
  - destruct (div a b) as [q'|e] eqn:Hq.
    + rewrite (NormalizerFacts.safeDivide_truthy a b q' Hb Hq).
      intros [= <-]. right. eauto.
    + unfold safeDivide. rewrite Hb, Hq. discriminate.
  - unfold safeDivide. rewrite Hb. intros [= <-]. now left.
Qed.

Lemma chartValue_number (x : number) :
  is_nan x = false -> chartValue (VNum x) = Normal (VNum x).
Proof.
  intros H. rewrite chartValue_converts by discriminate.
  cbn [ToNumber bind]. now rewrite H.
Qed.

End NormalizerInvariants.

(** * More on the Comparison Schema Builder and the Presentation Layer *)
Module RenderingFacts.
Import JS FileUpload Statements NormalizerInvariants.

Tactic Notation "invert_bind" hyp(H) "as" ident(a) ident(Ha) :=
  apply bind_normal in H as (a & Ha & H).

(** What chartValue returns is plottable (shared by the lemmas on rows). *)
Ltac plottable_result H :=
  match type of H with
  | chartValue ?v = Normal ?r =>
      let Hu := fresh "Hu" in let Hn := fresh "Hn" in
      destruct (absent_cases v) as [->|[->|[Hu Hn]]];
      [ injection H as <-; left; reflexivity
      | injection H as <-; left; reflexivity
      | rewrite (chartValue_converts v Hu Hn) in H;
        let x := fresh "x" in let Hx := fresh "Hx" in
        apply bind_normal in H as (x & Hx & H);
        destruct (is_nan x) eqn:?; injection H as <-;
        [left; reflexivity | right; eauto] ]
  end.

Lemma plain_row_result (data : value) (label sfield mfield : string) (r : row) :
  plain_row data label sfield mfield = Normal r ->
  name r = label /\ plottable (scidb r) /\ plottable (mapreduce r).
Proof.
  unfold plain_row. intros H.
  invert_bind H as s Hs. invert_bind H as s' Hs'.
  invert_bind H as m Hm. invert_bind H as m' Hm'.
  injection H as <-. cbn [name scidb mapreduce].
  split; [reflexivity | split].
  - plottable_result Hs'.
  - plottable_result Hm'.
Qed.

Lemma scaled_value (v : value) (by_ : Z) (q : number) (r : value) :
  safeDivide v (VNum (of_Z by_)) = Normal q -> chartValue (VNum q) = Normal r ->
  r = VNum q /\ is_nan q = false
  /\ (ToNumber v = Normal NaN -> q = zero).
Proof.
  intros Hq Hr.
  assert (Hnan : is_nan q = false /\ (ToNumber v = Normal NaN -> q = zero)).
  { apply safeDivide_cases in Hq as [[_ ->]|(_ & q' & Hdiv & ->)]; [now split|].
    split; [now destruct (is_nan q') eqn:E|].
    intros Hv. unfold div in Hdiv. rewrite Hv in Hdiv. cbn [bind ToNumber] in Hdiv.
    injection Hdiv as <-. reflexivity. }
  destruct Hnan as [Hnan Hzero].
  rewrite (chartValue_number q Hnan) in Hr. injection Hr as <-. auto.
Qed.

Lemma scaled_row_result (data : value) (label sfield mfield : string) (by_ : Z)
  (r : row) :
  scaled_row data label sfield mfield by_ = Normal r ->
  name r = label
  /\ (exists x, scidb r = VNum x /\ is_nan x = false
        /\ (engine_field data "scidb" sfield = Normal VUndefined -> x = zero))
  /\ (exists y, mapreduce r = VNum y /\ is_nan y = false
        /\ (engine_field data "mapreduce" mfield = Normal VUndefined -> y = zero)).
Proof.
  unfold scaled_row. intros H.
  invert_bind H as s Hs. invert_bind H as sq Hsq. invert_bind H as s' Hs'.
  invert_bind H as m Hm. invert_bind H as mq Hmq. invert_bind H as m' Hm'.
  injection H as <-. cbn [name scidb mapreduce].
  destruct (scaled_value _ _ _ _ Hsq Hs') as (-> & Hx & Hx0).
  destruct (scaled_value _ _ _ _ Hmq Hm') as (-> & Hy & Hy0).
  split; [reflexivity | split].
  - exists sq. split; [reflexivity | split; [exact Hx|]].
    intros E. rewrite Hs in E. injection E as ->. now apply Hx0.
  - exists mq. split; [reflexivity | split; [exact Hy|]].
    intros E. rewrite Hm in E. injection E as ->. now apply Hy0.
Qed.

Lemma plottable_number (x : number) : is_nan x = false -> plottable (VNum x).
Proof. intros H. right. eauto. Qed.

(** X6.  The two rows that go through safeDivide, Memory (MB) and File
    Size (KB), always hold Numbers other than NaN, never null; where an
    engine's field is missing the Number is 0. *)
Theorem scaled_rows_hold_numbers (data : value) (rows : list row) :
  ToBoolean data = true ->
  (performanceMetrics data = Normal rows ->
   exists x y,
     rows !! 1%nat
     = Some {| name := "Memory (MB)"; scidb := VNum x; mapreduce := VNum y |}
     /\ is_nan x = false /\ is_nan y = false
     /\ (engine_field data "scidb" "memory_usage_snapshot_mb" = Normal VUndefined
         -> x = zero)
     /\ (engine_field data "mapreduce" "memory_usage_avg_mb" = Normal VUndefined
         -> y = zero))
  /\ (dataMetrics data = Normal rows ->
      exists x y,
        rows !! 2%nat
        = Some {| name := "File Size (KB)"; scidb := VNum x; mapreduce := VNum y |}
        /\ is_nan x = false /\ is_nan y = false
        /\ (engine_field data "scidb" "file_size_bytes" = Normal VUndefined
            -> x = zero)
        /\ (engine_field data "mapreduce" "file_size_bytes" = Normal VUndefined
            -> y = zero)).
Proof.
  intros Ht. split; intros H.
  - unfold performanceMetrics in H. rewrite Ht in H.
    invert_bind H as r1 H1. invert_bind H as r2 H2.
    invert_bind H as r3 H3. invert_bind H as r4 H4. injection H as <-.
    apply scaled_row_result in H2
      as (Hn & (x & Hx & Nx & Zx) & (y & Hy & Ny & Zy)).
    exists x, y. destruct r2 as [n2 s2 m2]. cbn in Hn, Hx, Hy. subst.
    repeat split; assumption.
  - unfold dataMetrics in H. rewrite Ht in H.
    invert_bind H as r1 H1. invert_bind H as r2 H2.
    invert_bind H as r3 H3. invert_bind H as r4 H4. injection H as <-.
    apply scaled_row_result in H3
      as (Hn & (x & Hx & Nx & Zx) & (y & Hy & Ny & Zy)).
    exists x, y. destruct r3 as [n3 s3 m3]. cbn in Hn, Hx, Hy. subst.
    repeat split; assumption.
Qed.

Lemma scaled_rows_hold_numbers_witness :
  exists x y,
    [ {| name := "Execution Time (s)"; scidb := VNull; mapreduce := VNull |};
      {| name := "Memory (MB)"; scidb := VNum zero; mapreduce := VNum zero |};
      {| name := "CPU (%)"; scidb := VNull; mapreduce := VNull |};
      {| name := "Throughput (rows/s)"; scidb := VNull; mapreduce := VNull |} ]
      !! 1%nat
    = Some {| name := "Memory (MB)"; scidb := VNum x; mapreduce := VNum y |}
    /\ is_nan x = false /\ is_nan y = false
    /\ (engine_field (VObj []) "scidb" "memory_usage_snapshot_mb"
        = Normal VUndefined -> x = zero)
    /\ (engine_field (VObj []) "mapreduce" "memory_usage_avg_mb"
        = Normal VUndefined -> y = zero).
Proof.
  destruct (scaled_rows_hold_numbers (VObj [])
    [ {| name := "Execution Time (s)"; scidb := VNull; mapreduce := VNull |};
      {| name := "Memory (MB)"; scidb := VNum zero; mapreduce := VNum zero |};
      {| name := "CPU (%)"; scidb := VNull; mapreduce := VNull |};
      {| name := "Throughput (rows/s)"; scidb := VNull; mapreduce := VNull |} ]
    eq_refl) as [H _].
  apply H. vm_compute. reflexivity.
Defined.

(** X7.  Every value in every row the three builders return is null or a
    Number other than NaN. *)
Theorem rows_plottable (data : value) (rows : list row) :
  performanceMetrics data = Normal rows \/ dataMetrics data = Normal rows
  \/ systemMetrics data = Normal rows ->
  Forall (fun r => plottable (scidb r) /\ plottable (mapreduce r)) rows.
Proof.
  assert (Hplain : forall l s m r, plain_row data l s m = Normal r ->
                     plottable (scidb r) /\ plottable (mapreduce r)).
  { intros l s m r H. now apply plain_row_result in H as (_ & ? & ?). }
  assert (Hscaled : forall l s m b r, scaled_row data l s m b = Normal r ->
                      plottable (scidb r) /\ plottable (mapreduce r)).
  { intros l s m b r H.
    apply scaled_row_result in H as (_ & (x & -> & Nx & _) & (y & -> & Ny & _)).
    split; now apply plottable_number. }
  unfold performanceMetrics, dataMetrics, systemMetrics.
  destruct (ToBoolean data).
  - intros [H|[H|H]].
    + invert_bind H as r1 H1. invert_bind H as r2 H2.
      invert_bind H as r3 H3. invert_bind H as r4 H4. injection H as <-.
      repeat (constructor; [eauto|]); constructor.
    + invert_bind H as r1 H1. invert_bind H as r2 H2.
      invert_bind H as r3 H3. invert_bind H as r4 H4. injection H as <-.
      repeat (constructor; [eauto|]); constructor.
    + invert_bind H as r1 H1. injection H as <-.
      repeat (constructor; [eauto|]); constructor.
  - intros [[= <-]|[[= <-]|[= <-]]]; constructor.
Qed.

Lemma rows_plottable_witness :
  exists rows,
    dataMetrics partial_response = Normal rows
    /\ Forall (fun r => plottable (scidb r) /\ plottable (mapreduce r)) rows.
Proof.
  eexists. split; [vm_compute; reflexivity|].
  apply (rows_plottable partial_response). right. left. vm_compute. reflexivity.
Defined.

(** X8.  renderChart charts exactly the rows in which at least one of the
    two values is not null, in the order they came in: a row with null on
    both sides is left out, every other row is kept. *)
Theorem renderChart_drops_empty_rows (data : list row) (title : string)
  (colors : option (list string)) :
  exists kept,
    chart_data (renderChart data title colors) = Some (VArr (row_value <$> kept))
    /\ kept `sublist_of` data
    /\ forall r, r ∈ kept <->
         r ∈ data /\ ~ (scidb r = VNull /\ mapreduce r = VNull).
Proof.
  eexists. split; [reflexivity | split].
  - apply sublist_filter.
  - intros r. rewrite list_elem_of_filter. split.
    + intros [H Hin]. split; [exact Hin|]. intros [Hs Hm].
      rewrite Hs, Hm in H. discriminate H.
    + intros [Hin H]. split; [|exact Hin].
      apply orb_true_iff.
      destruct (strict_equal (scidb r) VNull) eqn:Es; [|now left].
      destruct (strict_equal (mapreduce r) VNull) eqn:Em; [|now right].
      exfalso. apply H.
      split; [destruct (scidb r) | destruct (mapreduce r)];
        solve [reflexivity | discriminate].
Qed.

(** ** Rendering a response *)

Lemma map_from_total {E A} (f : E -> nat -> completion A) (l : list E) (i : nat) :
  (forall e j, exists a, f e j = Normal a) ->
  exists rs, map_from f i l = Normal rs /\ length rs = length l.
Proof.
  intros Hf. revert i. induction l as [|e l IH]; intros i.
  - exists []. split; reflexivity.
  - destruct (Hf e i) as [a Ha]. destruct (IH (S i)) as (rs & Hrs & Hlen).
    exists (a :: rs). simpl. rewrite Ha. cbn [bind]. rewrite Hrs. cbn [bind].
    split; [reflexivity | simpl; now rewrite Hlen].
Qed.

Lemma detail_line_total (entry : string * value) :
  exists line, detail_line entry = Normal line.
Proof.
  destruct entry as [key val]. unfold detail_line.
  destruct val; cbn [typeof String.eqb Ascii.eqb Bool.eqb ToString bind];
    eexists; reflexivity.
Qed.


(** X9.  A details column never throws, whatever the engine's entry in
    the response holds: it has one line for each property Object.entries
    lists, and none when the entry is falsy. *)
Theorem detail_lines_never_throw (engine : value) :
  exists lines,
    detail_lines engine = Normal (EList lines)
    /\ length lines
       = length (Object_entries (if ToBoolean engine then engine else VObj [])).
Proof.
  unfold detail_lines.
  destruct (map_from_total (fun e (_ : nat) => detail_line e)
              (Object_entries (if ToBoolean engine then engine else VObj []))
              0%nat (fun e _ => detail_line_total e)) as (lines & Hl & Hlen).
  exists lines. rewrite Hl. split; [reflexivity | exact Hlen].
Qed.






(** X11.  The label of a details line has the length of the key, shows a
    space wherever the key has an underscore and the key's own character
    everywhere else; it never shows an underscore. *)
Theorem replace_underscores_pointwise (key : string) :
  String.length (replace_underscores key) = String.length key
  /\ forall i c, String.get i key = Some c ->
       String.get i (replace_underscores key)
       = Some (if Ascii.eqb c "_" then " "%char else c)
       /\ String.get i (replace_underscores key) <> Some "_"%char.
Proof.
  induction key as [|k key [IHlen IHget]]; split.
  - reflexivity.
  - intros i c H. destruct i; discriminate H.
  - simpl. now rewrite IHlen.
  - intros [|i] c H; simpl in *.
    + injection H as ->. split; [reflexivity|].
      destruct (Ascii.eqb c "_") eqn:E; [discriminate|].
      intros [= ->]. discriminate E.
    + now apply IHget.
Qed.

(** ** handleUpload *)

(** X12.  An upload attempted without a chosen file, and an upload the
    server fails, raise an alert and leave the comparison on the page as it
    was; with a file chosen, loading is off again once the handler is
    through, whatever the outcome, and the file stays chosen. *)
Theorem upload_leaves_page_on_failure (st : state) (outcome : request_outcome) :
  file (handleUpload st outcome).1 = file st
  /\ (file st = None -> handleUpload st outcome = (st, Some "Please select a file first."))
  /\ (file st <> None -> loading (handleUpload st outcome).1 = false)
  /\ (file st = None \/ outcome = Rejected ->
      response (handleUpload st outcome).1 = response st
      /\ (handleUpload st outcome).2 <> None)
  /\ (forall data, file st <> None -> outcome = Responded data ->
      response (handleUpload st outcome).1 = data
      /\ (handleUpload st outcome).2 = None).
Proof.
  unfold handleUpload.
  destruct (file st) as [f|] eqn:Ef; destruct outcome as [data|];
    cbn [fst snd file response loading]; rewrite ?Ef;
    intuition (try congruence; try discriminate).
Qed.

(** ** The tooltip *)

(** X13.  An entry with a color whose value is a finite Number below 10^21
    in magnitude is shown with two digits after the point: the numeral of
    the integer nearest to |value| * 100, with the sign of the value. *)
Theorem tooltip_shows_two_decimals (entry color name : value) (index : nat)
  (x : number) :
  ToBoolean entry = true ->
  get entry "color" = Normal color -> color <> VUndefined ->
  get entry "name" = Normal name ->
  get entry "value" = Normal (VNum x) ->
  is_finite x = true -> (magnitude_of x < inject_Z (10 ^ 21))%Q ->
  exists out n,
    tooltip_entry entry index
    = Normal (EElem "p"
                [("key", PValue (VNum (of_nat index)));
                 ("style", PValue (VObj [("color", color)]))]
                [EValue name; EText ":"; EText " "; EText out])
    /\ read_numeral out = Some (is_negative x, n, 2%nat)
    /\ (inject_Z n - (1 # 2) <= magnitude_of x * inject_Z 100)%Q
    /\ (magnitude_of x * inject_Z 100 < inject_Z n + (1 # 2))%Q.
Proof.
  intros Ht Hcolor Hc Hname Hval Hfin Hlim.
  destruct (NumeralFacts.nearest_scaled_spec (magnitude_of x) 2
              (NumeralFacts.magnitude_nonneg x) ltac:(lia)) as (Hn & Hlo & Hhi).
  exists ((if is_negative x then "-" else "")
          +:+ fixed_digits (nearest_scaled (magnitude_of x) 2) 2),
    (nearest_scaled (magnitude_of x) 2).
  split; [|split; [|split; assumption]].
  - unfold tooltip_entry. rewrite Ht, Hcolor. cbn [negb bind].
    assert (strict_equal color VUndefined = false) as ->
      by (destruct color; solve [reflexivity | congruence]).
    rewrite Hname, Hval. cbn [bind typeof String.eqb Ascii.eqb Bool.eqb].
    unfold isNaN. cbn [ToNumber bind strict_equal negb andb call_toFixed].
    assert (is_nan x = false) as -> by (now destruct x).
    cbn [negb andb]. unfold toFixed.
    cbn [Z.ltb Z.compare orb]. rewrite Hfin.
    cbn [negb]. rewrite (NormalizerFacts.below_limit x Hlim). reflexivity.
  - apply (NumeralFacts.read_signed_fixed_digits _ _ 2); [assumption | lia].
Qed.

Lemma tooltip_shows_two_decimals_witness :
  exists out n,
    tooltip_entry
      (VObj [("name", VStr "scidb"); ("value", VNum (sample "1.234"));
             ("color", VStr "#4f46e5")]) 0
    = Normal (EElem "p"
                [("key", PValue (VNum (of_nat 0)));
                 ("style", PValue (VObj [("color", VStr "#4f46e5")]))]
                [EValue (VStr "scidb"); EText ":"; EText " "; EText out])
    /\ read_numeral out = Some (false, n, 2%nat)
    /\ (inject_Z n - (1 # 2) <= magnitude_of (sample "1.234") * inject_Z 100)%Q
    /\ (magnitude_of (sample "1.234") * inject_Z 100 < inject_Z n + (1 # 2))%Q.
Proof.
  apply (tooltip_shows_two_decimals
           (VObj [("name", VStr "scidb"); ("value", VNum (sample "1.234"));
                  ("color", VStr "#4f46e5")])
           (VStr "#4f46e5") (VStr "scidb") 0 (sample "1.234"));
    try reflexivity; discriminate.
Defined.

End RenderingFacts.

(** * More on the Upload Ingress *)
Module IngressFacts.
Import JS Datasets Statements.

(** ** path.extname *)

Lemma get_chars (s : string) (i : nat) :
  String.get i s = list_ascii_of_string s !! i.
Proof.
  revert i. induction s as [|c s IH]; intros [|i]; simpl; try reflexivity.
  apply IH.
Qed.

Lemma length_chars (s : string) :
  length (list_ascii_of_string s) = String.length s.
Proof. induction s; simpl; [reflexivity | now f_equal]. Qed.

Lemma differs_at (chars : list ascii) (i j : Z) (c : ascii) (n : Z) :
  0 <= i -> chars !! Z.to_nat i = Some c -> code c <> n -> j = i -> differs chars j n.
Proof. intros Hi Hc Hn -> c' Hc'. congruence. Qed.

Ltac split_scanned :=
  refine (conj _ (conj _ (conj _ (conj _ (conj _ (conj _ _)))))).

Ltac differs_goal i c :=
  intros;
  lazymatch goal with
  | |- differs _ ?j ?n =>
      first
        [ exfalso; lia
        | destruct (decide (j = i));
          [ first [ exfalso; lia
                  | apply (differs_at _ i j c); assumption ]
          | first [ exfalso; lia
                  | match goal with
                    | H : forall j, _ -> differs _ j n |- _ =>
                        solve [apply H; lia]
                    | H : _ -> forall j, _ -> differs _ j n |- _ =>
                        solve [apply H; [assumption || lia | lia]]
                    end ] ] ]
  end.

Ltac scanned_goals i c :=
  split_scanned;
  solve [ lia | tauto | auto
        | symmetry; apply Z.eqb_neq; lia
        | symmetry; etransitivity;
          [apply Z.eqb_neq; lia | symmetry; assumption]
        | differs_goal i c
        | intros; split; [lia | split; [eauto | differs_goal i c]] ].


Lemma scanned_step (chars : list ascii) (st : scan) (i : Z) (c : ascii) :
  0 <= i -> chars !! Z.to_nat i = Some c ->
  scanned chars st (i + 1) -> scanned chars (scan_step st i (code c)) i.
Proof.
  intros Hi Hc. unfold scanned at 1. cbv zeta.
  destruct (stopped st) eqn:Est.
  { (* the scan is over *)
    unfold scan_step, scanned. rewrite Est. cbv zeta. rewrite Est. tauto. }
  intros (Hlo & Hms & Hend & Hbound & Hslash & Hnodot & Hdot).
  assert (Hlen : i < Z.of_nat (length chars)).
  { apply lookup_lt_Some in Hc. lia. }
  unfold scan_step, scanned. rewrite Est. cbv zeta.
  destruct (end_ st =? -1) eqn:Ee; [apply Z.eqb_eq in Ee | apply Z.eqb_neq in Ee].
  - (* nothing of the last component met yet *)
    destruct (Hend Ee) as [Hsd _]. rewrite Hms.
    destruct (code c =? 47) eqn:E47.
    + (* a trailing slash *)
      cbn [negb]. rewrite Est, Hms, Ee, Hsd. cbn [Z.eqb Pos.eqb].
      scanned_goals i c.
    + (* the last character of the last component *)
      apply Z.eqb_neq in E47.
      destruct (code c =? 46) eqn:E46;
        [apply Z.eqb_eq in E46 | apply Z.eqb_neq in E46];
        cbn [stopped startPart end_ startDot matchedSlash preDotState];
        rewrite ?Hsd; cbn [Z.eqb Pos.eqb negb];
        cbn [stopped startPart end_ startDot matchedSlash preDotState];
        rewrite ?Est, ?Hsd; scanned_goals i c.
  - (* inside or before the last component *)
    specialize (Hbound Ee). rewrite Hms.
    destruct (code c =? 47) eqn:E47.
    + (* the slash before the last component *)
      cbn [negb stopped startPart end_ startDot matchedSlash preDotState].
      split_scanned; auto; lia.
    + apply Z.eqb_neq in E47.
      destruct (code c =? 46) eqn:E46;
        [apply Z.eqb_eq in E46 | apply Z.eqb_neq in E46].
      * destruct (startDot st =? -1) eqn:Es;
          [apply Z.eqb_eq in Es | apply Z.eqb_neq in Es].
        -- (* the first dot from the right *)
           cbn [stopped startPart end_ startDot matchedSlash preDotState].
           scanned_goals i c.
        -- destruct (Hdot Es) as (Hr & Hat & Hafter).
           destruct (negb (preDotState st =? 1));
             cbn [stopped startPart end_ startDot matchedSlash preDotState];
             rewrite ?Est; scanned_goals i c.
      * destruct (startDot st =? -1) eqn:Es;
          [apply Z.eqb_eq in Es | apply Z.eqb_neq in Es]; cbn [negb];
          cbn [stopped startPart end_ startDot matchedSlash preDotState];
          rewrite ?Est.
        -- scanned_goals i c.
        -- destruct (Hdot Es) as (Hr & Hat & Hafter). scanned_goals i c.
Qed.


Lemma scanned_down (chars pre suf : list ascii) (st : scan) :
  chars = (pre ++ suf)%list ->
  scanned chars st (Z.of_nat (length pre)) ->
  scanned chars (scan_down (rev pre) (Z.of_nat (length pre) - 1) st) 0.
Proof.
  revert suf st. induction pre as [|c pre IH] using rev_ind; intros suf st E H.
  - exact H.
  - rewrite rev_unit. cbn [scan_down].
    rewrite length_app in *. cbn [length] in *.
    replace (Z.of_nat (length pre + 1) - 1) with (Z.of_nat (length pre)) by lia.
    replace (Z.of_nat (length pre + 1)) with (Z.of_nat (length pre) + 1) in H
      by lia.
    replace (Z.of_nat (length pre) - 1) with (Z.of_nat (length pre) - 1) by lia.
    apply (IH (c :: suf)%list).
    + rewrite E, <- app_assoc. reflexivity.
    + apply scanned_step; [lia | | exact H].
      rewrite E, Nat2Z.id, <- app_assoc. cbn [app].
      apply list_lookup_middle. reflexivity.
Qed.

Lemma scanned_start (chars : list ascii) :
  scanned chars
    {| startDot := -1; startPart := 0; end_ := -1;
       matchedSlash := true; preDotState := 0; stopped := false |}
    (Z.of_nat (length chars)).
Proof.
  unfold scanned.
  cbn [stopped startPart end_ startDot matchedSlash preDotState].
  split_scanned; try reflexivity; try tauto; try lia; intros; lia.
Qed.

Lemma code_char (c : ascii) (n : N) :
  code c = Z.of_N n -> c = ascii_of_N n.
Proof.
  unfold code. intros E. apply N2Z.inj in E.
  rewrite <- E. symmetry. apply ascii_N_embedding.
Qed.

(** The result of extname, when it is not empty: where it lies in the
    path, and what the scan knows of its characters. *)
Lemma extname_cases (p : string) :
  extname p = ""
  \/ exists a m : nat,
       extname p = String.substring a m p
       /\ (0 < m)%nat
       /\ String.get a p = Some "."%char
       /\ forall i c, (i < m)%nat -> String.get (i + a) p = Some c ->
            c <> "/"%char /\ ((0 < i)%nat -> c <> "."%char).
Proof.
  unfold extname. cbv zeta.
  set (chars := list_ascii_of_string p).
  pose proof (scanned_down chars chars [] _ (eq_sym (app_nil_r chars))
                (scanned_start chars)) as H.
  set (st := scan_down _ _ _) in *. clearbody st.
  destruct (_ || _) eqn:Econd; [now left | right].
  apply orb_false_iff in Econd. destruct Econd as [Econd _].
  apply orb_false_iff in Econd. destruct Econd as [Econd _].
  apply orb_false_iff in Econd. destruct Econd as [Es Ee].
  apply Z.eqb_neq in Es, Ee.
  destruct H as (Hlo & _ & _ & _ & Hslash & _ & Hdot).
  destruct (Hdot Es) as (Hr & (c0 & Hat & Hc0) & Hafter).
  set (lo := if stopped st then startPart st else 0) in *.
  exists (Z.to_nat (startDot st)), (Z.to_nat (end_ st - startDot st)).
  split; [reflexivity | split; [lia | split]].
  - rewrite get_chars. fold chars. rewrite Hat. f_equal.
    apply (code_char c0 46). exact Hc0.
  - intros i c Hi Hget. rewrite get_chars in Hget. fold chars in Hget.
    split.
    + intros ->.
      assert (Hj : lo <= Z.of_nat (i + Z.to_nat (startDot st)) < end_ st)
        by lia.
      apply (Hslash _ Hj "/"%char); [| reflexivity].
      rewrite Nat2Z.id. exact Hget.
    + intros Hpos ->.
      assert (Hj : startDot st < Z.of_nat (i + Z.to_nat (startDot st)) < end_ st)
        by lia.
      apply (Hafter _ Hj "."%char); [| reflexivity].
      rewrite Nat2Z.id. exact Hget.
Qed.

Lemma get_substring (a m : nat) (p : string) (i : nat) (c : ascii) :
  String.get i (String.substring a m p) = Some c ->
  (i < m)%nat /\ String.get (i + a) p = Some c.
Proof.
  intros H. destruct (Nat.lt_ge_cases i m) as [Hlt|Hge].
  - split; [exact Hlt|]. rewrite <- H. symmetry.
    now apply substring_correct1.
  - rewrite (substring_correct2 p a m i Hge) in H. discriminate.
Qed.

Lemma extname_slash_free (p : string) : slash_free (extname p).
Proof.
  destruct (extname_cases p) as [E | (a & m & E & _ & _ & H)]; rewrite E.
  - intros [|i] c Hget; discriminate.
  - intros i c Hget. apply get_substring in Hget. destruct Hget as [Hi Hget].
    now apply (H i c).
Qed.

Lemma slash_free_append (a b : string) :
  slash_free a -> slash_free b -> slash_free (a +:+ b).
Proof.
  intros Ha Hb i c Hget.
  destruct (Nat.lt_ge_cases i (String.length a)) as [Hlt|Hge].
  - rewrite <- (append_correct1 a b i Hlt) in Hget. now apply (Ha i).
  - replace i with ((i - String.length a) + String.length a)%nat in Hget by lia.
    rewrite <- append_correct2 in Hget. exact (Hb _ c Hget).
Qed.

Lemma append_same_length (a b x y : string) :
  String.length a = String.length b -> a +:+ x = b +:+ y -> a = b.
Proof.
  revert b. induction a as [|c a IH]; intros [|d b] Hlen E;
    try discriminate; [reflexivity|].
  rewrite !NumeralFacts.append_cons in E. injection E as -> E.
  f_equal. apply IH; [now injection Hlen | exact E].
Qed.

(** X14.  The extension path.extname takes from a name is empty, or it is
    a piece of the name that begins with a dot, has no other dot and no
    slash. *)
Theorem extname_shape (p : string) :
  extname p = ""
  \/ (String.get 0 (extname p) = Some "."%char
      /\ (forall i c, String.get (S i) (extname p) = Some c -> c <> "."%char)
      /\ slash_free (extname p)
      /\ exists start, forall i c,
           String.get i (extname p) = Some c ->
           String.get (i + start) p = Some c).
Proof.
  destruct (extname_cases p) as [E | (a & m & E & Hm & Hdot & H)];
    [now left | right].
  split; [| split; [| split]].
  - rewrite E, substring_correct1 by exact Hm. exact Hdot.
  - rewrite E. intros i c Hget. apply get_substring in Hget.
    destruct Hget as [Hi Hget]. apply (H (S i) c Hi Hget). lia.
  - apply extname_slash_free.
  - exists a. rewrite E. intros i c Hget. now apply get_substring in Hget.
Qed.

(** X15.  Whatever name the client gives the file, the name it gets on
    disk has no slash when the identifier has none: a stored file lies
    directly in the uploads directory. *)
Theorem stored_name_stays_in_uploads (w w' : world) (parts : list file_part)
    (r : response) :
  slash_free (uuids w (drawn w)) ->
  post_upload w parts = (w', r) ->
  forall name sz, In (name, sz) (uploads w') ->
    In (name, sz) (uploads w) \/ slash_free name.
Proof.
  intros Hid E name sz Hin. revert E.
  unfold post_upload, upload_single, storage_filename, uuidv4.
  destruct (named parts) as [|part more].
  { cbn [upload_handler]. intros [= <- _]. now left. }
  destruct (negb _).
  { intros [= <- _]. now left. }
  destruct (fileSize <? size part).
  { intros [= <- _]. now left. }
  destruct more as [|second more].
  - cbn [upload_handler uuidv4 uuids drawn uploads filename file_path file_size].
    intros [= <- _]. cbn [uploads] in Hin. destruct Hin as [[= <- <-] | Hin].
    + right. apply slash_free_append; [exact Hid | apply extname_slash_free].
    + now left.
  - intros [= <- _]. now left.
Qed.

Lemma stored_name_stays_in_uploads_witness :
  In ("3b241101-e2bb-4255-8caf-4136c566a962.csv", 2048) (uploads fresh_world)
  \/ slash_free "3b241101-e2bb-4255-8caf-4136c566a962.csv".
Proof.
  apply (stored_name_stays_in_uploads fresh_world
           (fst (post_upload fresh_world
              [{| fieldname := "dataset"; originalname := "../../etc/rows.csv";
                  size := 2048 |}]))
           [{| fieldname := "dataset"; originalname := "../../etc/rows.csv";
               size := 2048 |}]
           (snd (post_upload fresh_world
              [{| fieldname := "dataset"; originalname := "../../etc/rows.csv";
                  size := 2048 |}]))).
  - intros i c H. cbn [fresh_world uuids drawn two_uuids] in H.
    do 36 (destruct i as [|i]; [injection H as <-; discriminate|]).
    discriminate.
  - apply surjective_pairing.
  - vm_compute. left. reflexivity.
Defined.

(** X16.  The answers of POST /upload: 201 exactly when the request holds
    one file part with a file name, under the field [dataset] and within
    the size limit; 400 exactly when it holds no file part with a file
    name; 500 for every other request; and unless the answer is 201 the
    directory is as it was. *)
Theorem upload_status_cases (w : world) (parts : list file_part) :
  (status (snd (post_upload w parts)) = 201
   \/ status (snd (post_upload w parts)) = 400
   \/ status (snd (post_upload w parts)) = 500)
  /\ (status (snd (post_upload w parts)) = 201 <->
      exists part, named parts = [part] /\ fieldname part = "dataset"
                   /\ size part <= fileSize)
  /\ (status (snd (post_upload w parts)) = 400 <-> named parts = [])
  /\ (status (snd (post_upload w parts)) <> 201 ->
      uploads (fst (post_upload w parts)) = uploads w).
Proof.
  unfold post_upload, upload_single, storage_filename, uuidv4.
  destruct (named parts) as [|part more].
  { cbn. repeat split; try tauto; try discriminate; try lia.
    intros (part & [=] & _). }
  destruct (String.eqb_spec (fieldname part) "dataset") as [Ef|Ef]; cbn [negb].
  2:{ cbn. repeat split; try tauto; try discriminate; try lia.
      intros (part' & [= <- _] & Hf & _). contradiction. }
  destruct (Z.ltb_spec fileSize (size part)) as [Hsz|Hsz].
  { cbn [fst snd status uploads].
    repeat split; try tauto; try discriminate; try lia.
    intros (part' & [= <- _] & _ & Hle). lia. }
  destruct more as [|second more].
  - cbn [upload_handler uuidv4 uuids drawn uploads fst snd status].
    repeat split; try tauto; try discriminate; try lia; eauto.
  - cbn [fst snd status uploads].
    repeat split; try tauto; try discriminate; try lia.
    intros (part' & [=] & _).
Qed.

(** X17.  Two named files accepted one after the other get different names
    on disk, also when the client sends the same name twice, provided the
    two identifiers drawn for the names differ and have one length: the
    second upload does not overwrite the first. *)
Theorem successive_uploads_distinct (w : world) (o1 o2 : string) (s1 s2 : Z) :
  o1 <> "" -> o2 <> "" ->
  s1 <= fileSize -> s2 <= fileSize ->
  uuids w (drawn w) <> uuids w (S (S (drawn w))) ->
  String.length (uuids w (drawn w))
  = String.length (uuids w (S (S (drawn w)))) ->
  exists n1 n2,
    uploads
      (fst (post_upload
              (fst (post_upload w
                      [{| fieldname := "dataset"; originalname := o1;
                          size := s1 |}]))
              [{| fieldname := "dataset"; originalname := o2; size := s2 |}]))
    = (n2, s2) :: (n1, s1) :: uploads w
    /\ n1 <> n2.
Proof.
  intros N1 N2 H1 H2 Hne Hlen.
  rewrite (DatasetsFacts.accepted_upload w o1 s1 N1 H1). cbn [fst].
  rewrite (DatasetsFacts.accepted_upload _ o2 s2 N2 H2).
  cbn [fst uploads uuids drawn].
  do 2 eexists. split; [reflexivity|].
  intros E. apply Hne. exact (append_same_length _ _ _ _ Hlen E).
Qed.

Lemma successive_uploads_distinct_witness :
  exists n1 n2,
    uploads
      (fst (post_upload
              (fst (post_upload fresh_world
                      [{| fieldname := "dataset"; originalname := "rows.csv";
                          size := 2048 |}]))
              [{| fieldname := "dataset"; originalname := "rows.csv";
                  size := 4096 |}]))
    = (n2, 4096) :: (n1, 2048) :: uploads fresh_world /\ n1 <> n2.
Proof.
  apply (successive_uploads_distinct fresh_world "rows.csv" "rows.csv" 2048 4096).
  - discriminate.
  - discriminate.
  - unfold fileSize. lia.
  - unfold fileSize. lia.
  - discriminate.
  - reflexivity.
Defined.

End IngressFacts.

(** * The users collection *)
Module UserFacts.
Import JS UserController.

(** X18.  Deleting by identifier answers 200 exactly when the user was
    there and 404 otherwise; afterwards reading that identifier answers
    404 with the error User not found, deleting it again answers 404, and
    every other identifier reads as before. *)
Theorem delete_then_read (users : gmap N value) (id : N) :
  (status (snd (deleteUser users (ObjectId id))) = 200 <-> is_Some (users !! id))
  /\ (status (snd (deleteUser users (ObjectId id))) = 404 <-> users !! id = None)
  /\ getUserById (fst (deleteUser users (ObjectId id))) (ObjectId id)
     = {| status := 404; body := Error "User not found" |}
  /\ snd (deleteUser (fst (deleteUser users (ObjectId id))) (ObjectId id))
     = {| status := 404; body := Error "User not found" |}
  /\ forall other, other <> id ->
       getUserById (fst (deleteUser users (ObjectId id))) (ObjectId other)
       = getUserById users (ObjectId other).
Proof.
  assert (Hfst : fst (deleteUser users (ObjectId id)) = delete id users).
  { unfold deleteUser, findByIdAndDelete. now destruct (users !! id). }
  rewrite !Hfst.
  unfold deleteUser, getUserById, findByIdAndDelete, findById.
  rewrite lookup_delete_eq.
  split; [| split; [| split; [| split]]].
  - destruct (users !! id) eqn:E; cbn [snd status]; split;
      try discriminate; eauto.
    intros [? [=]].
  - destruct (users !! id) eqn:E; cbn [snd status]; split;
      try discriminate; eauto.
  - reflexivity.
  - reflexivity.
  - intros other Hne. now rewrite lookup_delete_ne.
Qed.

End UserFacts.
